(* ===== verification/_CoqProject ===== *)
-Q . S2P
Prelude.v
Ledger.v
Validator.v
Engine.v
Committer.v
Backend.v
Cli.v
Main.v
