(* ===== verification/Prelude.v ===== *)
(** * TPCripto: a verification development of the Ethereum transfer demo

    The repository (ferqueirolo/TPCripto) is one Go program, [src/main.go].
    It creates two key pairs A and B, funds both with 10,000,000 wei in a
    genesis allocation, starts go-ethereum's simulated backend, and sends
    two signed transfers (A to B, then B to A) read from the console,
    committing a block after each and printing the balances.  The ledger,
    validation, execution and block machinery it drives live in
    go-ethereum, outside the repository; the specification ([spec.md])
    describes that core as four components.  This development models the
    core from the specification, the go-ethereum calls [main.go] makes on
    top of it, and [main.go] itself from its source.

    ** How the parts interact

    [main] (Main) reads the console (Cli), builds and signs transactions
    through an abstract signing provider (Validator's [SigningProvider]
    class), and drives the simulated backend (Backend).  The backend
    submits each transaction to the engine (Engine), which calls the
    validator (Validator) and then the ledger's only mutator
    [applyTransfer] (Ledger).  [Commit] snapshots the ledger into the
    chain (Committer), and [BalanceAt] answers from the snapshots.

    ** Files, in dependency order

    - [Prelude] (this file): the [result] type and its [let?] notation in
      [tp_scope], the errors of spec section 7 ([TxError]), addresses as
      160-bit [N], the 256-bit value domain [max_value], the hint
      databases [tp] and [tp_rw], and the tactics [case_N] and
      [simpl_result].
    - [Ledger], Module [AccountLedger] (spec 4.1): the state is a
      [gmap Address Account]; the operations are [getBalance],
      [getNonce], the checked [applyTransfer] ([Overflow] or
      [InsufficientFunds]), [snapshot] and [ledger_of_genesis].
      [total_supply] is a [map_fold].  [transfer_spec] is the relational
      specification of a transfer.  [bal_eq] is a setoid of ledgers with
      the same balances, with [Proper] instances.
    - [Validator], Module [TransactionValidator] (spec 4.2): [validate]
      performs the five checks in order.  The value of a transaction is
      the signed [*big.Int] it was built from, so the overflow check also
      refuses a value outside the domain [0, 2^256 - 1].  Its rejections
      are specified by the inductive [rejects].  [TestSigner] is a concrete provider
      used to evaluate the model.
    - [Engine], Module [ExecutionEngine] (spec 4.3): [submit] is
      validate-then-apply and produces a receipt; [submit_all] runs a
      sequence of submissions.
    - [Committer], Module [BlockCommitter] (spec 4.4): [commit],
      [balanceAt] (with [BlockNotFound]) and [currentIndex] on an
      append-only list of blocks.
    - [Backend], Module [SimulatedBackend]: the state record
      [Backend] (working ledger, pending batch, chain).  The calls are
      [NewSimulatedBackend] (which commits the genesis as block 0),
      [SendTransaction], [Commit], [PendingNonceAt], [BalanceAt] and
      [Close] (which reports no error).
      [backend_step] is the step relation, [reachable] and [steps]
      are its closures, and [backend_inv] is proved by rule induction.
    - [Cli], Module [GoConsole]: the helpers of [main.go] lines
      220-260.  [getAmount] and [getGasLimit] read an int64 with
      [Scanln], where a failed scan gives 0.  [to_uint64] is
      [uint64(limit)].  [bigString] and [SetString] are big.Int's
      decimal [String] and [SetString].  [printBalance] uses [%10v].
      [dec_string] is a reference decimal printer defined with Equations
      by well-founded recursion.  The fuelled loop [N_to_dec] is proved
      equal to it.
    - [Main], Module [TPMain]: [main] (lines 23-218) in a
      writer-with-exit monad [Go] (printed lines, [return] and [panic]).
      It is composed of [setup] (32-78), [phase1] (89-146),
      [phase2] (155-217), [send_step] (103-123: [NewTransaction], which
      only assembles the fields, then [SignTx] and [SendTransaction],
      whose error is the call's error), [extractBalance] (248-255),
      [currentBlockTx0] (132-133) and [printTrxInfo] (237-245).
      [phase1] includes [backend.Close()] and its error branch
      (139-143).  The deferred [recover] (24-31) is in
      [main].  Keys and the text of addresses and errors are section
      variables.

    ** What is proved

    The claims are about [main.go]'s own code, in Main and Cli:
    - refinement: a send succeeds exactly when the validator accepts the
      signed transaction ([send_step_validate]); a completed [main] ends
      with the balances of one persistent ledger receiving both
      transactions it signs (A's and B's, both with nonce 0), yet with
      A's nonce reset ([main_refines_persistent]);
    - safety and invariants of a send: an applied one moves the ledger as
      [transfer_spec] says, records a 21000-gas receipt, removes only the
      fee, and advances the signer's nonce by one; a replayed nonce is
      refused;
    - properties of [main]: it never panics; the two clients end with
      their initial funds less two fees, and each with the exact balance
      the console's amounts give; the final chain is well indexed and
      bounded; the nonces around the rebuilt backend;
    - liveness: an applied send is in the block of the next commit, and
      every run of [main] reaches one of its three exits and prints that
      exit's message last;
    - errors and boundaries: a send is refused for gas exactly below
      21000; a negative gas limit is never refused for gas; the Cost line
      [printTrxInfo] prints exceeds the debit by the unused gas; the
      error message of phase 1;
    - console behaviour: a gas limit read is an int64 and [uint64(limit)]
      wraps negatives to at least 2^63; big.Int's decimal [String], on a
      fuelled loop, equals the reference; the printed balance round trip.
    The witnesses evaluate the claims on the spec's scenarios A and B
    (Main's [MainScenarios]).
    The component files prove the specification's invariants, which
    these claims rest on.  They include conservation of the supply up
    to fees (per transfer, per sequence, at every block height), atomic
    rejection, strictly consecutive nonces, replay rejection, the
    validator's complete functional specification, and that history is
    immutable.

    ** Bounds and fuel

    Balances and charges are [N] checked against [max_value = 2^256 - 1];
    a transaction's value is a [Z], as [big.NewInt] of an int64 gives.
    The int64 console values and the uint64 wrap are in [Z], modulo 2^64.  Only
    decimal printing recurses on something other than its argument's
    structure.  [N_to_dec] uses fuel [N.size n + 1].  The loop runs once
    per decimal digit, and that fuel is always enough: [bigString] is
    proved equal, on every integer, to the reference [dec_string], which
    needs no fuel (Equations checks that [n / 10 < n] for [n >= 10]).

    ** Not modelled

    Key generation and ECDSA/EIP-155 signing are external cryptography,
    abstracted by [SigningProvider] and its recovery law.  The EIP-55
    text of an address ([Address.String]) is a parameter.  The
    [log.Fatal] branches cannot fail in the simulated setting.
    The block gas limit 4712388 given to [NewSimulatedBackend] is not
    modelled, because the specification's validator has no such check.
    In go-ethereum, a transaction whose gas limit exceeds it (for
    example a wrapped negative console entry) is refused; this is
    recorded as a finding.  So is a negative console amount: the
    specification's value is unsigned and says nothing of it; the model
    carries the signed value and its validator refuses it as outside the
    domain, where go-ethereum's own checks would apply.  Where go-ethereum
    panics on an invalid transaction, the model returns the
    specification's error.  Network, persistence and the
    go-ethereum internals beyond what the specification says are out of
    scope.
*)

From stdpp Require Export base gmap.
From Stdlib Require Export NArith ZArith Lia.
From Stdlib Require Import Strings.Byte.

Declare Scope tp_scope.
Delimit Scope tp_scope with tp.
Open Scope N_scope.

(** ** Results: explicit error values instead of Go's panics *)

Inductive result (A E : Type) : Type :=
| Ok (a : A)
| Err (e : E).
Arguments Ok {A E} a.
Arguments Err {A E} e.

Definition result_bind {A B E} (c : result A E) (k : A -> result B E) : result B E :=
  match c with
  | Ok a => k a
  | Err e => Err e
  end.

Notation "'let?' x ':=' c 'in' k" := (result_bind c (fun x => k))
  (at level 10, x name, c at level 100, k at level 200) : tp_scope.

Definition is_ok {A E} (r : result A E) : bool :=
  match r with Ok _ => true | Err _ => false end.

#[export] Instance byte_eq_decision : EqDecision Byte.byte := Byte.byte_eq_dec.

(** ** The error taxonomy of the core (spec section 7) *)

Inductive TxError : Type :=
| InvalidSignature
| GasLimitTooLow
| NonceMismatch
| Overflow
| InsufficientFunds
| BlockNotFound.

#[export] Instance TxError_eq_dec : EqDecision TxError.
Proof. solve_decision. Defined.

(** ** Addresses and the integer domain *)

(** A go-ethereum [common.Address] is 20 bytes: a 160-bit number. *)
Definition Address := N.
Definition ADDRESS_BITS : N := 160.
Definition addr_wf (a : Address) : bool := a <? 2 ^ ADDRESS_BITS.

(** Balances and values are [big.Int]s in the source; the account state
    of Ethereum holds them as 256-bit words, so the domain in which
    [value + gasLimit * gasPrice] must not overflow is [0 .. 2^256 - 1]. *)
Definition max_value : N := 2 ^ 256 - 1.

(** ** Shared lemmas and automation *)

Create HintDb tp.
Create Rewrite HintDb tp_rw.

Lemma result_bind_Ok {A B E} (c : result A E) (k : A -> result B E) b :
  result_bind c k = Ok b <-> exists a, c = Ok a /\ k a = Ok b.
Proof.
  destruct c as [a|e]; simpl; split.
  - eauto.
  - intros (a' & [= ->] & H). exact H.
  - discriminate.
  - intros (a' & H & _). discriminate.
Qed.

Lemma result_bind_Err {A B E} (c : result A E) (k : A -> result B E) e :
  result_bind c k = Err e <-> c = Err e \/ exists a, c = Ok a /\ k a = Err e.
Proof.
  destruct c as [a|e']; simpl; split.
  - eauto.
  - intros [H | (a' & [= ->] & H)]; [discriminate | exact H].
  - intros [= ->]. auto.
  - intros [H | (a' & H & _)]; congruence.
Qed.

(** Case analysis on the boolean comparisons of [N] and [Z] the code performs,
    each turned into the proposition it decides. *)
Ltac case_N :=
  repeat match goal with
  | |- context [(?a <? ?b)%N] => destruct (N.ltb_spec a b)
  | |- context [(?a <=? ?b)%N] => destruct (N.leb_spec a b)
  | |- context [(?a =? ?b)%N] => destruct (N.eqb_spec a b)
  | H : context [(?a <? ?b)%N] |- _ => destruct (N.ltb_spec a b)
  | H : context [(?a <=? ?b)%N] |- _ => destruct (N.leb_spec a b)
  | H : context [(?a =? ?b)%N] |- _ => destruct (N.eqb_spec a b)
  | |- context [(?a <? ?b)%Z] => destruct (Z.ltb_spec a b)
  | H : context [(?a <? ?b)%Z] |- _ => destruct (Z.ltb_spec a b)
  end.

(** Close the equations between [Ok]/[Err] values a case split leaves. *)
Ltac simpl_result :=
  repeat match goal with
  | H : Ok _ = Ok _ |- _ => injection H as H
  | H : Err _ = Err _ |- _ => injection H as H
  | H : Ok _ = Err _ |- _ => discriminate H
  | H : Err _ = Ok _ |- _ => discriminate H
  end; subst.
