(* ===== verification/Ledger.v ===== *)
(** * AccountLedger (spec section 4.1)

    The ledger maps addresses to accounts [{balance; nonce}]; an absent
    address reads as balance 0 and nonce 0.  [applyTransfer] is its only
    mutator: it debits the sender by [value + fee], increments the
    sender's nonce and credits the recipient by [value], all or nothing.
    In the program this state is go-ethereum's state database behind the
    simulated backend ([backends.NewSimulatedBackend] in [src/main.go]);
    the operations are modelled from the specification.

    The file proves the pointwise effect of a transfer (an abstract
    relational specification [transfer_spec] that [applyTransfer]
    refines), conservation of the total supply up to the fee, and that
    a ledger whose total supply fits the 256-bit domain never hits the
    recipient-overflow branch. *)

From S2P Require Import Prelude.
Open Scope N_scope.

Module AccountLedger.

Record Account := mkAccount { balance : N; nonce : N }.

#[export] Instance Account_eq_dec : EqDecision Account.
Proof. solve_decision. Defined.

Abbreviation Ledger := (gmap Address Account).

Definition empty_account : Account := mkAccount 0 0.

Definition get_account (L : Ledger) (a : Address) : Account :=
  default empty_account (L !! a).

(** [getBalance] and [getNonce] return 0 for unknown addresses. *)
Definition getBalance (L : Ledger) (a : Address) : N := balance (get_account L a).
Definition getNonce (L : Ledger) (a : Address) : N := nonce (get_account L a).

(** Debit [value + fee] and bump the nonce of [sender], then credit
    [value] to [recipient] in the ledger the debit produced (so a
    transfer to oneself only costs the fee).  Every check happens before
    the result is built: an error leaves no partial update. *)
Definition applyTransfer (L : Ledger) (sender recipient : Address) (value fee : N)
    : result Ledger TxError :=
  let charge := value + fee in
  if max_value <? charge then Err Overflow else
  let sa := get_account L sender in
  if balance sa <? charge then Err InsufficientFunds else
  let L1 := <[sender := mkAccount (balance sa - charge) (nonce sa + 1)]> L in
  let ra := get_account L1 recipient in
  if max_value <? balance ra + value then Err Overflow else
  Ok (<[recipient := mkAccount (balance ra + value) (nonce ra)]> L1).

(** A block keeps the ledger value itself: Rocq values are immutable, so
    the copy cannot alias the working ledger. *)
Definition snapshot (L : Ledger) : Ledger := L.

(** The genesis allocation: every listed address gets its balance and
    nonce 0; as in a Go map literal, a later entry for the same key wins. *)
Definition ledger_of_genesis (g : list (Address * N)) : Ledger :=
  foldl (fun L '(a, b) => <[a := mkAccount b 0]> L) ∅ g.

Definition total_supply (L : Ledger) : N :=
  map_fold (fun _ acc s => balance acc + s) 0 L.

(** The ledger invariant: the whole supply fits the value domain, hence
    so does every balance. *)
Definition ledger_bounded (L : Ledger) : Prop := total_supply L <= max_value.

(** ** Abstract specification of a transfer *)

(** What a successful transfer promises, account by account, without
    subtraction: the sender pays [value + fee], the recipient gains
    [value], only the sender's nonce moves, by one. *)
Record transfer_spec (L : Ledger) (s r : Address) (value fee : N) (L' : Ledger) : Prop := {
  ts_funds : value + fee <= getBalance L s;
  ts_balance : forall a,
    getBalance L' a + (if decide (a = s) then value + fee else 0)
    = getBalance L a + (if decide (a = r) then value else 0);
  ts_nonce : forall a,
    getNonce L' a = getNonce L a + (if decide (a = s) then 1 else 0)
}.

(** ** Lemmas on lookups *)

Lemma get_account_insert (L : Ledger) k v a :
  get_account (<[k := v]> L) a = if decide (k = a) then v else get_account L a.
Proof.
  unfold get_account. rewrite lookup_insert. by case_decide.
Qed.

Lemma getBalance_insert (L : Ledger) k v a :
  getBalance (<[k := v]> L) a = if decide (k = a) then balance v else getBalance L a.
Proof. unfold getBalance. rewrite get_account_insert. by case_decide. Qed.

Lemma getNonce_insert (L : Ledger) k v a :
  getNonce (<[k := v]> L) a = if decide (k = a) then nonce v else getNonce L a.
Proof. unfold getNonce. rewrite get_account_insert. by case_decide. Qed.

#[export] Hint Rewrite get_account_insert getBalance_insert getNonce_insert : tp_rw.

Lemma getBalance_empty a : getBalance ∅ a = 0.
Proof. reflexivity. Qed.

Lemma getNonce_empty a : getNonce ∅ a = 0.
Proof. reflexivity. Qed.

#[export] Hint Rewrite getBalance_empty getNonce_empty : tp_rw.

(** ** The genesis allocation *)

Lemma getNonce_genesis g a : getNonce (ledger_of_genesis g) a = 0.
Proof.
  unfold ledger_of_genesis.
  cut (forall L, (forall a, getNonce L a = 0) ->
         getNonce (foldl (fun L '(a, b) => <[a := mkAccount b 0]> L) L g) a = 0);
    [intros H; by apply H|].
  induction g as [|[x b] g IH]; intros L HL; simpl; [done|].
  apply IH. intros a'. rewrite getNonce_insert. by case_decide.
Qed.

Lemma getBalance_genesis2 x y bx byy a :
  getBalance (ledger_of_genesis [(x, bx); (y, byy)]) a =
  if decide (y = a) then byy else if decide (x = a) then bx else 0.
Proof. unfold ledger_of_genesis. simpl. by rewrite !getBalance_insert. Qed.

(** ** The total supply *)

Lemma total_supply_empty : total_supply ∅ = 0.
Proof. reflexivity. Qed.

Lemma total_supply_delete (L : Ledger) k :
  total_supply L = getBalance L k + total_supply (delete k L).
Proof.
  unfold getBalance, get_account, total_supply.
  destruct (L !! k) as [a|] eqn:E; simpl.
  - rewrite (map_fold_delete_L _ _ k a L); [done | intros; lia | done].
  - by rewrite delete_id.
Qed.

Lemma total_supply_insert (L : Ledger) k v :
  total_supply (<[k := v]> L) + getBalance L k = total_supply L + balance v.
Proof.
  rewrite (total_supply_delete L k).
  rewrite <- insert_delete_eq.
  unfold total_supply.
  rewrite map_fold_insert_L; [lia | intros; lia | apply lookup_delete_eq].
Qed.

(** A two-account genesis holds at most the two allocations. *)
Lemma total_supply_genesis2 x y bx byy :
  total_supply (ledger_of_genesis [(x, bx); (y, byy)]) <= bx + byy.
Proof.
  unfold ledger_of_genesis. simpl.
  pose proof (total_supply_insert (<[x := mkAccount bx 0]> ∅) y (mkAccount byy 0)) as E1.
  pose proof (total_supply_insert ∅ x (mkAccount bx 0)) as E2.
  simpl in *. rewrite total_supply_empty in E2. lia.
Qed.

Lemma getBalance_le_total (L : Ledger) k : getBalance L k <= total_supply L.
Proof. rewrite (total_supply_delete L k). lia. Qed.

Lemma getBalance_delete_ne (L : Ledger) k a :
  k <> a -> getBalance (delete k L) a = getBalance L a.
Proof. intros Hne. unfold getBalance, get_account. by rewrite lookup_delete_ne. Qed.

(** Two distinct accounts together hold at most the total supply. *)
Lemma getBalance_two_le_total (L : Ledger) s r :
  s <> r -> getBalance L s + getBalance L r <= total_supply L.
Proof.
  intros Hne. rewrite (total_supply_delete L s).
  pose proof (getBalance_le_total (delete s L) r) as H.
  rewrite getBalance_delete_ne in H by done. lia.
Qed.

#[export] Hint Resolve getBalance_le_total getBalance_two_le_total : tp.

(** Unfold the accessors and split on every address comparison a chain
    of [insert]s leaves, then close the arithmetic. *)
Ltac ledger_simpl :=
  unfold getBalance, getNonce in *; autorewrite with tp_rw in *;
  repeat case_decide; subst; simpl in *; try lia.

(** ** Ledgers with the same balances *)

(** Two ledgers are balance-equivalent when every address has the same
    balance in both; nonces may differ.  A coarser equivalence than
    equality: a ledger rebuilt from a genesis of the current balances is
    balance-equivalent to the ledger it was read from. *)
Definition bal_eq (L L' : Ledger) : Prop := forall a, getBalance L a = getBalance L' a.

#[export] Instance bal_eq_equiv : Equivalence bal_eq.
Proof.
  split; [intros L a; done | intros L L' H a; by rewrite H
         | intros L1 L2 L3 H1 H2 a; by rewrite H1, H2].
Qed.

#[export] Instance getBalance_proper : Proper (bal_eq ==> eq ==> eq) getBalance.
Proof. intros L L' H a ? <-. apply H. Qed.

Lemma applyTransfer_unfold (L : Ledger) s r value fee :
  applyTransfer L s r value fee =
  let L1 := <[s := mkAccount (getBalance L s - (value + fee)) (getNonce L s + 1)]> L in
  if max_value <? value + fee then Err Overflow else
  if getBalance L s <? value + fee then Err InsufficientFunds else
  if max_value <? getBalance L1 r + value then Err Overflow else
  Ok (<[r := mkAccount (getBalance L1 r + value) (getNonce L1 r)]> L1).
Proof. reflexivity. Qed.

(** A transfer on balance-equivalent ledgers succeeds on both or fails
    on both, with the same error, and leaves balance-equivalent ledgers. *)
Lemma applyTransfer_bal_eq (L L' : Ledger) s r value fee :
  bal_eq L L' ->
  match applyTransfer L s r value fee, applyTransfer L' s r value fee with
  | Ok M, Ok M' => bal_eq M M'
  | Err e, Err e' => e = e'
  | _, _ => False
  end.
Proof.
  intros Heq. rewrite !applyTransfer_unfold. cbv zeta.
  rewrite !getBalance_insert, (Heq s).
  destruct (decide (s = r)) as [<-|Hne]; simpl; [|rewrite (Heq r)]; case_N; try done.
  all: intros a; rewrite !getBalance_insert; repeat case_decide; simpl; subst;
    rewrite ?(Heq a); lia.
Qed.

(** ** The transfer *)

Lemma applyTransfer_Ok_inv (L L' : Ledger) s r value fee :
  applyTransfer L s r value fee = Ok L' ->
  let L1 := <[s := mkAccount (getBalance L s - (value + fee)) (getNonce L s + 1)]> L in
  value + fee <= max_value /\ value + fee <= getBalance L s /\
  getBalance L1 r + value <= max_value /\
  L' = <[r := mkAccount (getBalance L1 r + value) (getNonce L1 r)]> L1.
Proof.
  unfold applyTransfer, getBalance, getNonce. intros H. case_N; simpl_result.
  repeat split; lia.
Qed.

(** [applyTransfer] refines its abstract specification. *)
Lemma applyTransfer_refines (L L' : Ledger) s r value fee :
  applyTransfer L s r value fee = Ok L' -> transfer_spec L s r value fee L'.
Proof.
  intros H. apply applyTransfer_Ok_inv in H as (Hmax & Hfunds & Hcredit & ->).
  split; [done | intros a .. ]; ledger_simpl.
Qed.

(** The transfer removes exactly the fee from circulation. *)
Lemma applyTransfer_conservation (L L' : Ledger) s r value fee :
  applyTransfer L s r value fee = Ok L' ->
  total_supply L' + fee = total_supply L.
Proof.
  intros H. apply applyTransfer_Ok_inv in H as (Hmax & Hfunds & Hcredit & ->).
  match goal with |- total_supply (<[r := ?vr]> ?L1) + _ = _ =>
    pose proof (total_supply_insert L1 r vr) as E1;
    pose proof (total_supply_insert L s (mkAccount (getBalance L s - (value + fee))
                                                    (getNonce L s + 1))) as E2 end.
  simpl in *. lia.
Qed.

(** On a ledger whose supply fits the value domain, a sender who can pay
    [value + fee] is never refused: neither overflow branch is taken. *)
Lemma applyTransfer_succeeds (L : Ledger) s r value fee :
  ledger_bounded L -> value + fee <= getBalance L s ->
  exists L', applyTransfer L s r value fee = Ok L'.
Proof.
  unfold ledger_bounded. intros Hb Hf.
  pose proof (getBalance_le_total L s) as Hs.
  destruct (decide (s = r)) as [<-|Hne].
  - unfold applyTransfer. fold (getBalance L s). rewrite get_account_insert.
    rewrite decide_True by done. simpl. case_N; eauto; lia.
  - pose proof (getBalance_two_le_total L s r Hne) as Hsr.
    unfold applyTransfer. fold (getBalance L s). rewrite get_account_insert.
    rewrite decide_False by done. fold (getBalance L r). case_N; eauto; lia.
Qed.

Lemma applyTransfer_bounded (L L' : Ledger) s r value fee :
  ledger_bounded L -> applyTransfer L s r value fee = Ok L' -> ledger_bounded L'.
Proof.
  unfold ledger_bounded. intros Hb H.
  apply applyTransfer_conservation in H. lia.
Qed.

(** A successful transfer does what the specification of
    [applyTransfer] promises account by account, removes exactly the fee
    from the total supply, and keeps a bounded ledger bounded. *)
Theorem applyTransfer_correct (L L' : Ledger) s r value fee :
  applyTransfer L s r value fee = Ok L' ->
  transfer_spec L s r value fee L' /\ total_supply L' + fee = total_supply L /\
  (ledger_bounded L -> ledger_bounded L').
Proof.
  intros H. split; [by apply applyTransfer_refines|].
  split; [by eapply applyTransfer_conservation | intros Hb; by eapply applyTransfer_bounded].
Qed.

(** ** Witness *)

Definition demo_ledger : Ledger := ledger_of_genesis [(1, 100)].
Definition demo_after : Ledger :=
  match applyTransfer demo_ledger 1 2 30 5 with Ok L => L | Err _ => demo_ledger end.

Lemma applyTransfer_correct_witness :
  transfer_spec demo_ledger 1 2 30 5 demo_after /\
  total_supply demo_after + 5 = total_supply demo_ledger /\
  (ledger_bounded demo_ledger -> ledger_bounded demo_after).
Proof.
  apply applyTransfer_correct. unfold demo_after.
  destruct (applyTransfer demo_ledger 1 2 30 5) eqn:E; [reflexivity | vm_compute in E; discriminate].
Defined.

End AccountLedger.
