(* ===== verification/Validator.v ===== *)
(** * TransactionValidator (spec section 4.2)

    Transactions are go-ethereum's [types.Transaction] as [src/main.go]
    builds them with [types.NewTransaction(nonce, to, amount, gasLimit,
    gasPrice, data)] and signs with [types.SignTx].  Signing and sender
    recovery belong to an external signing provider (spec section 6),
    stated here as the type class [SigningProvider] with the one law the
    validator relies on: recovering the signature of a payload signed
    with a key yields that key's address.

    [validate] performs the five checks of the specification in their
    order, short-circuiting on the first failure, and never touches the
    ledger (its type has no ledger in its result).  The value being a
    signed [*big.Int], the overflow check (spec section 8: never a small
    or negative effective charge) refuses a value outside the domain
    [0, 2^256 - 1] as well as a charge above it.  The theorems
    characterise acceptance, and each rejection reason by the inductive
    specification [rejects] of "the first failing check". *)

From S2P Require Import Prelude Ledger.
Import AccountLedger.
Open Scope N_scope.

Module TransactionValidator.

(** The signed fields of a transfer.  The value is go-ethereum's
    [*big.Int], a signed integer: [main.go] builds it with [big.NewInt]
    from an int64 typed at the console (lines 99, 177). *)
Record TxPayload := mkPayload {
  tx_nonce : N;
  recipient : Address;
  value : Z;
  gasLimit : N;
  gasPrice : N;
  data : list Byte.byte
}.

#[export] Instance TxPayload_eq_dec : EqDecision TxPayload.
Proof. solve_decision. Defined.

(** The external signing provider (key generation, [SignTx], sender
    recovery).  Address derivation is deterministic and every derived
    address is well formed. *)
Class SigningProvider := {
  PrivateKey : Type;
  Signature : Type;
  pubAddress : PrivateKey -> Address;
  sign : TxPayload -> PrivateKey -> Signature;
  recoverAddress : Signature -> TxPayload -> option Address;
  recover_sign : forall m k, recoverAddress (sign m k) m = Some (pubAddress k);
  pubAddress_wf : forall k, addr_wf (pubAddress k) = true
}.

(** The fixed intrinsic gas of a plain transfer. *)
Definition MINIMUM_TRANSFER_GAS : N := 21000.

(** The most a transaction may take from its sender, for a value in the
    domain. *)
Definition max_charge (p : TxPayload) : N := Z.to_N (value p) + gasLimit p * gasPrice p.

Section Validation.
Context `{SP : SigningProvider}.

Record Transaction := mkTransaction { payload : TxPayload; signature : Signature }.

(** What an accepted transaction hands to the engine. *)
Record Validated := mkValidated { v_sender : Address; v_charge : N }.

Definition signTx (p : TxPayload) (k : PrivateKey) : Transaction :=
  mkTransaction p (sign p k).

Definition validate (L : Ledger) (tx : Transaction) : result Validated TxError :=
  let p := payload tx in
  match recoverAddress (signature tx) p with
  | None => Err InvalidSignature
  | Some s =>
    if negb (addr_wf s) then Err InvalidSignature else
    if gasLimit p <? MINIMUM_TRANSFER_GAS then Err GasLimitTooLow else
    if negb (tx_nonce p =? getNonce L s) then Err NonceMismatch else
    let charge := max_charge p in
    if (value p <? 0)%Z || (max_value <? charge) then Err Overflow else
    if getBalance L s <? charge then Err InsufficientFunds else
    Ok (mkValidated s charge)
  end.

(** The sender a well-formed signature designates. *)
Definition signed_by (tx : Transaction) (s : Address) : Prop :=
  recoverAddress (signature tx) (payload tx) = Some s /\ addr_wf s = true.

(** The recovered sender of a transaction, when its signature designates
    a well-formed address. *)
Definition sender_of (tx : Transaction) : option Address :=
  match recoverAddress (signature tx) (payload tx) with
  | Some s => if addr_wf s then Some s else None
  | None => None
  end.

(** ** Specification of the rejections: the first failing check *)

Inductive rejects (L : Ledger) (tx : Transaction) : TxError -> Prop :=
| rej_signature :
    (forall s, ~ signed_by tx s) -> rejects L tx InvalidSignature
| rej_gas s :
    signed_by tx s -> gasLimit (payload tx) < MINIMUM_TRANSFER_GAS ->
    rejects L tx GasLimitTooLow
| rej_nonce s :
    signed_by tx s -> MINIMUM_TRANSFER_GAS <= gasLimit (payload tx) ->
    tx_nonce (payload tx) <> getNonce L s -> rejects L tx NonceMismatch
| rej_overflow s :
    signed_by tx s -> MINIMUM_TRANSFER_GAS <= gasLimit (payload tx) ->
    tx_nonce (payload tx) = getNonce L s ->
    (value (payload tx) < 0)%Z \/ max_value < max_charge (payload tx) ->
    rejects L tx Overflow
| rej_funds s :
    signed_by tx s -> MINIMUM_TRANSFER_GAS <= gasLimit (payload tx) ->
    tx_nonce (payload tx) = getNonce L s -> (0 <= value (payload tx))%Z ->
    max_charge (payload tx) <= max_value ->
    getBalance L s < max_charge (payload tx) -> rejects L tx InsufficientFunds.

(** ** Lemmas *)

Lemma signed_by_functional tx s s' : signed_by tx s -> signed_by tx s' -> s = s'.
Proof. intros [H1 _] [H2 _]. congruence. Qed.

Lemma sender_of_signed_by tx s : sender_of tx = Some s <-> signed_by tx s.
Proof.
  unfold sender_of, signed_by.
  destruct (recoverAddress _ _) as [s'|]; [destruct (addr_wf s') eqn:?|];
    split; intros H; destruct_and?; simplify_eq; try done; congruence.
Qed.

Lemma signTx_signed_by p k : signed_by (signTx p k) (pubAddress k).
Proof. split; [apply recover_sign | apply pubAddress_wf]. Qed.

(** Unfold [validate] on a transaction whose signer is known. *)
Lemma validate_signed L tx s :
  signed_by tx s ->
  validate L tx =
    if gasLimit (payload tx) <? MINIMUM_TRANSFER_GAS then Err GasLimitTooLow else
    if negb (tx_nonce (payload tx) =? getNonce L s) then Err NonceMismatch else
    if (value (payload tx) <? 0)%Z || (max_value <? max_charge (payload tx)) then Err Overflow else
    if getBalance L s <? max_charge (payload tx) then Err InsufficientFunds else
    Ok (mkValidated s (max_charge (payload tx))).
Proof. intros [Hr Hwf]. unfold validate. by rewrite Hr, Hwf. Qed.

Lemma validate_unsigned L tx :
  (forall s, ~ signed_by tx s) -> validate L tx = Err InvalidSignature.
Proof.
  intros Hns. unfold validate.
  destruct (recoverAddress _ _) as [s|] eqn:Hr; [|done].
  destruct (addr_wf s) eqn:Hwf; [|done].
  exfalso. by apply (Hns s).
Qed.

(** ** Functional behaviour *)

(** [validate] accepts exactly the transactions whose signature
    designates a sender, whose gas limit covers the intrinsic transfer
    gas, whose nonce is the sender's next one, and whose maximal charge
    fits the value domain and the sender's balance; it then returns that
    sender and that charge. *)
Theorem validate_Ok_iff L tx v :
  validate L tx = Ok v <->
  exists s, signed_by tx s /\
    MINIMUM_TRANSFER_GAS <= gasLimit (payload tx) /\
    tx_nonce (payload tx) = getNonce L s /\ (0 <= value (payload tx))%Z /\
    max_charge (payload tx) <= max_value /\
    max_charge (payload tx) <= getBalance L s /\
    v = mkValidated s (max_charge (payload tx)).
Proof.
  split.
  - intros H. destruct (recoverAddress (signature tx) (payload tx)) as [s|] eqn:Hr;
      [|unfold validate in H; rewrite Hr in H; discriminate].
    destruct (addr_wf s) eqn:Hwf;
      [|unfold validate in H; rewrite Hr, Hwf in H; discriminate].
    assert (Hs : signed_by tx s) by done.
    rewrite (validate_signed L tx s Hs) in H.
    exists s. case_N; simpl in *; simpl_result; repeat split; auto; lia.
  - intros (s & Hs & Hg & Hn & Hv & Hm & Hb & ->).
    rewrite (validate_signed L tx s Hs). case_N; simpl; done || lia.
Qed.

(** A rejection reports exactly the first check that fails, in the
    specification's order: signature, gas limit, nonce, overflow,
    funds. *)
Theorem validate_Err_iff L tx e :
  validate L tx = Err e <-> rejects L tx e.
Proof.
  split.
  - intros H.
    destruct (recoverAddress (signature tx) (payload tx)) as [s|] eqn:Hr;
      [destruct (addr_wf s) eqn:Hwf|].
    + assert (Hs : signed_by tx s) by done.
      rewrite (validate_signed L tx s Hs) in H.
      case_N; simpl in *; simpl_result; econstructor; eauto; lia.
    + unfold validate in H. rewrite Hr, Hwf in H. simpl in H. simpl_result.
      constructor. intros s' [Hr' Hwf']. congruence.
    + unfold validate in H. rewrite Hr in H. simpl in H. simpl_result.
      constructor. intros s' [Hr' _]. congruence.
  - intros Hrej. destruct Hrej as [Hns|s Hs|s Hs|s Hs|s Hs];
      [by apply validate_unsigned|..];
      rewrite (validate_signed L tx s Hs); case_N; simpl; done || lia.
Qed.

(** The complete functional specification of the validator: it
    accepts exactly the transactions that pass the five checks, returning
    the signer and the maximal charge, and it rejects every other one
    with the reason of the first check that fails, in the specification's
    order (signature, gas limit, nonce, overflow, funds). *)
Theorem validate_correct L tx :
  (forall v, validate L tx = Ok v <->
     exists s, signed_by tx s /\ MINIMUM_TRANSFER_GAS <= gasLimit (payload tx) /\
       tx_nonce (payload tx) = getNonce L s /\ (0 <= value (payload tx))%Z /\
       max_charge (payload tx) <= max_value /\
       max_charge (payload tx) <= getBalance L s /\ v = mkValidated s (max_charge (payload tx))) /\
  (forall e, validate L tx = Err e <-> rejects L tx e).
Proof. split; [apply validate_Ok_iff | apply validate_Err_iff]. Qed.

End Validation.

#[export] Hint Resolve signTx_signed_by : tp.

(** A concrete signing provider for evaluating the model on examples:
    a key is the number it stands for, its address that number modulo
    2^160, and a signature records the payload and the signer. *)
Module TestSigner.

Definition test_recover (sg : TxPayload * Address) (m : TxPayload) : option Address :=
  if decide (sg.1 = m) then Some sg.2 else None.

Definition test_signer : SigningProvider.
Proof.
  refine {| PrivateKey := N; Signature := TxPayload * Address;
            pubAddress k := k mod 2 ^ ADDRESS_BITS;
            sign m k := (m, k mod 2 ^ ADDRESS_BITS);
            recoverAddress := test_recover |}.
  - intros m k. unfold test_recover. simpl. by rewrite decide_True.
  - intros k. unfold addr_wf. apply N.ltb_lt, N.mod_lt. discriminate.
Defined.

End TestSigner.

End TransactionValidator.
