(* ===== verification/Engine.v ===== *)
(** * ExecutionEngine (spec section 4.3)

    [submit] is the validate-then-apply step: a rejected transaction
    yields a [Rejected] receipt with no gas and no cost and the ledger
    unchanged; an accepted one is charged the fixed transfer gas
    [MINIMUM_TRANSFER_GAS * gasPrice] through [applyTransfer], whose
    result is authoritative.  [submit_all] runs a sequence of
    submissions, threading the ledger.  In the program this is
    go-ethereum applying the transaction inside the simulated backend's
    [SendTransaction] ([src/main.go] lines 120 and 196).

    The theorems: atomic rejection, conservation (per step and over any
    sequence), the effect of an applied transfer against the ledger's
    abstract specification, that validation success implies application
    on a bounded ledger, that applied nonces of each sender are
    consecutive from its current nonce, and that a replayed transaction
    is always rejected with [NonceMismatch].  The scenarios A to D of
    spec section 8 are checked on a concrete signing provider. *)

From S2P Require Import Prelude Ledger Validator.
Import AccountLedger TransactionValidator.
Open Scope N_scope.

Module ExecutionEngine.

Inductive Status := Applied | Rejected (reason : TxError).

#[export] Instance Status_eq_dec : EqDecision Status.
Proof. solve_decision. Defined.

(** [start, start + 1, ..., start + len - 1]. *)
Fixpoint seqN (start : N) (len : nat) : list N :=
  match len with
  | O => []
  | S k => start :: seqN (start + 1) k
  end.

Section Engine.
Context `{SP : SigningProvider}.

Record Receipt := mkReceipt {
  transactionRef : Transaction;
  status : Status;
  gasUsed : N;
  totalCost : N
}.

Definition rejected_receipt (tx : Transaction) (e : TxError) : Receipt :=
  mkReceipt tx (Rejected e) 0 0.

Definition submit (L : Ledger) (tx : Transaction) : Receipt * Ledger :=
  match validate L tx with
  | Err e => (rejected_receipt tx e, L)
  | Ok v =>
    let gasUsed := MINIMUM_TRANSFER_GAS in
    let totalCost := gasUsed * gasPrice (payload tx) in
    match applyTransfer L (v_sender v) (recipient (payload tx)) (Z.to_N (value (payload tx))) totalCost with
    | Err e => (rejected_receipt tx e, L)
    | Ok L' => (mkReceipt tx Applied gasUsed totalCost, L')
    end
  end.

Fixpoint submit_all (L : Ledger) (txs : list Transaction) : list Receipt * Ledger :=
  match txs with
  | [] => ([], L)
  | tx :: rest =>
    let '(r, L1) := submit L tx in
    let '(rs, L2) := submit_all L1 rest in
    (r :: rs, L2)
  end.

(** The gas fees a list of receipts charged. *)
Definition fees (rs : list Receipt) : N := foldr (fun r acc => totalCost r + acc) 0 rs.

(** The nonces of the applied transactions of sender [s], in order. *)
Fixpoint applied_nonces (s : Address) (rs : list Receipt) : list N :=
  match rs with
  | [] => []
  | r :: rs' =>
    match status r, sender_of (transactionRef r) with
    | Applied, Some s' =>
      if decide (s' = s) then tx_nonce (payload (transactionRef r)) :: applied_nonces s rs'
      else applied_nonces s rs'
    | _, _ => applied_nonces s rs'
    end
  end.

(** The fee an accepted transaction pays. *)
Definition transfer_fee (tx : Transaction) : N := MINIMUM_TRANSFER_GAS * gasPrice (payload tx).

(** ** The two outcomes of [submit] *)

Lemma submit_cases L tx r L' :
  submit L tx = (r, L') ->
  (exists e, r = rejected_receipt tx e /\ L' = L) \/
  (exists v, validate L tx = Ok v /\
     r = mkReceipt tx Applied MINIMUM_TRANSFER_GAS (transfer_fee tx) /\
     applyTransfer L (v_sender v) (recipient (payload tx)) (Z.to_N (value (payload tx)))
                   (transfer_fee tx) = Ok L').
Proof.
  unfold submit, transfer_fee. intros H.
  destruct (validate L tx) as [v|e]; [|simplify_eq; eauto].
  destruct (applyTransfer _ _ _ _ _) as [L1|e] eqn:Ha; simplify_eq; eauto 10.
Qed.

(** An applied receipt: the sender is the signer, the ledger moved as
    the ledger's transfer specification says, the cost is the fee. *)
Lemma submit_Applied L tx r L' :
  submit L tx = (r, L') -> status r = Applied ->
  exists s, signed_by tx s /\ tx_nonce (payload tx) = getNonce L s /\
    MINIMUM_TRANSFER_GAS <= gasLimit (payload tx) /\
    r = mkReceipt tx Applied MINIMUM_TRANSFER_GAS (transfer_fee tx) /\
    applyTransfer L s (recipient (payload tx)) (Z.to_N (value (payload tx))) (transfer_fee tx) = Ok L'.
Proof.
  intros H Hst. destruct (submit_cases _ _ _ _ H) as [(e & -> & ->) | (v & Hv & -> & Ha)];
    [discriminate|].
  apply validate_Ok_iff in Hv as (s & Hs & Hg & Hn & _ & _ & _ & ->). eauto 10.
Qed.

(** An applied transaction carries a value in the domain. *)
Lemma submit_Applied_value L tx r L' :
  submit L tx = (r, L') -> status r = Applied -> (0 <= value (payload tx))%Z.
Proof.
  intros H Hst. destruct (submit_cases _ _ _ _ H) as [(e & -> & ->) | (v & Hv & _ & _)];
    [discriminate|].
  by apply validate_Ok_iff in Hv as (s & _ & _ & _ & Hval & _).
Qed.

Lemma sender_of_signTx p k : sender_of (signTx p k) = Some (pubAddress k).
Proof. apply sender_of_signed_by, signTx_signed_by. Qed.

Lemma applied_nonces_cons s r rs :
  applied_nonces s (r :: rs) = applied_nonces s [r] ++ applied_nonces s rs.
Proof. simpl. by repeat case_match. Qed.

Lemma seqN_S n k : seqN n (S k) = n :: seqN (n + 1) k.
Proof. reflexivity. Qed.

(** The effect of one submission on the nonce of [s] and on the nonces
    it records: either nothing, or one applied transaction of [s]
    carrying the nonce [s] had, which then moves up by one. *)
Lemma submit_nonce_step L tx r L' s :
  submit L tx = (r, L') ->
  (applied_nonces s [r] = [] /\ getNonce L' s = getNonce L s) \/
  (applied_nonces s [r] = [getNonce L s] /\ getNonce L' s = getNonce L s + 1).
Proof.
  intros H. destruct (submit_cases _ _ _ _ H) as [(e & -> & ->) | (v & Hv & -> & Ha)].
  - by left.
  - pose proof Hv as Hv'. apply validate_Ok_iff in Hv as (s0 & Hs & _ & Hn & _ & _ & _ & ->).
    apply applyTransfer_refines in Ha. pose proof (ts_nonce _ _ _ _ _ _ Ha s) as Hn'.
    simpl in *. apply sender_of_signed_by in Hs. rewrite Hs.
    destruct (decide (s0 = s)) as [<-|Hne].
    + right. rewrite !decide_True in * by done. split; [by rewrite Hn | lia].
    + left. rewrite !decide_False in * by done. split; [done | lia].
Qed.

(** ** Atomic rejection, conservation and the effect of a transfer *)

(** A rejected submission leaves the whole ledger as it was and
    charges nothing: its receipt has zero gas and zero cost. *)
Theorem submit_rejected_atomic L tx r L' e :
  submit L tx = (r, L') -> status r = Rejected e ->
  L' = L /\ gasUsed r = 0 /\ totalCost r = 0.
Proof.
  intros H Hst.
  destruct (submit_cases _ _ _ _ H) as [(e' & -> & ->) | (v & _ & -> & _)];
    [by repeat split | discriminate].
Qed.

Lemma submit_conservation L tx r L' :
  submit L tx = (r, L') -> total_supply L' + totalCost r = total_supply L.
Proof.
  intros H. destruct (submit_cases _ _ _ _ H) as [(e & -> & ->) | (v & _ & -> & Ha)]; simpl.
  - lia.
  - by apply applyTransfer_conservation in Ha.
Qed.

(** Conservation over any sequence of submissions: the balances
    that remain plus the fees charged equal the supply before. *)
Theorem submit_all_conservation L txs rs L' :
  submit_all L txs = (rs, L') -> total_supply L' + fees rs = total_supply L.
Proof.
  revert L rs L'. induction txs as [|tx txs IH]; intros L rs L' H; simpl in H.
  - simplify_eq. simpl. lia.
  - destruct (submit L tx) as [r L1] eqn:E1.
    destruct (submit_all L1 txs) as [rs1 L2] eqn:E2. simplify_eq.
    apply submit_conservation in E1. apply IH in E2. simpl. lia.
Qed.

(** An applied receipt charges the fixed transfer gas at the
    transaction's gas price, and the ledger moved as the abstract
    transfer specification says for the signer of the transaction. *)
Theorem submit_applied_spec L tx r L' :
  submit L tx = (r, L') -> status r = Applied ->
  exists s, signed_by tx s /\ gasUsed r = MINIMUM_TRANSFER_GAS /\
    totalCost r = transfer_fee tx /\
    transfer_spec L s (recipient (payload tx)) (Z.to_N (value (payload tx))) (transfer_fee tx) L'.
Proof.
  intros H Hst. destruct (submit_Applied _ _ _ _ H Hst) as (s & Hs & _ & _ & -> & Ha).
  exists s. do 3 (split; [done|]). by apply applyTransfer_refines.
Qed.

Lemma submit_bounded L tx r L' :
  ledger_bounded L -> submit L tx = (r, L') -> ledger_bounded L'.
Proof.
  unfold ledger_bounded. intros Hb H. apply submit_conservation in H. lia.
Qed.

(** On a bounded ledger the apply step never refuses a validated
    transaction. *)
Lemma submit_validated_Applied L tx v :
  ledger_bounded L -> validate L tx = Ok v -> status (submit L tx).1 = Applied.
Proof.
  intros Hb Hv. unfold submit. rewrite Hv.
  apply validate_Ok_iff in Hv as (s & _ & Hg & _ & _ & _ & Hbal & ->). simpl.
  destruct (applyTransfer_succeeds L s (recipient (payload tx)) (Z.to_N (value (payload tx)))
              (MINIMUM_TRANSFER_GAS * gasPrice (payload tx)) Hb) as [L' ->]; [|done].
  unfold max_charge in Hbal.
  pose proof (N.mul_le_mono_r _ _ (gasPrice (payload tx)) Hg). lia.
Qed.

Lemma submit_Rejected_validate L tx e :
  ledger_bounded L -> status (submit L tx).1 = Rejected e -> validate L tx = Err e.
Proof.
  intros Hb H. destruct (validate L tx) as [v|e'] eqn:Hv.
  - rewrite (submit_validated_Applied L tx v Hb Hv) in H. discriminate.
  - unfold submit in H. rewrite Hv in H. simpl in H. by simplify_eq.
Qed.

(** On a ledger whose supply fits the value domain, the engine's
    verdict is exactly the validator's: the apply step never refuses a
    validated transaction, and a rejection carries the validator's
    reason. *)
Theorem submit_status_validate L tx :
  ledger_bounded L ->
  status (submit L tx).1 = match validate L tx with Ok _ => Applied | Err e => Rejected e end.
Proof.
  intros Hb. destruct (validate L tx) as [v|e] eqn:Hv.
  - exact (submit_validated_Applied L tx v Hb Hv).
  - unfold submit. by rewrite Hv.
Qed.

(** Overflow safety: a correctly signed transaction with the right
    nonce and enough gas whose maximal charge [value + gasLimit *
    gasPrice] exceeds the value domain is rejected with [Overflow], with
    the ledger unchanged; no wrapped-around charge is ever applied. *)
Theorem submit_overflow_rejected L tx s :
  signed_by tx s -> MINIMUM_TRANSFER_GAS <= gasLimit (payload tx) ->
  tx_nonce (payload tx) = getNonce L s -> max_value < max_charge (payload tx) ->
  submit L tx = (rejected_receipt tx Overflow, L).
Proof.
  intros Hs Hg Hn Ho.
  assert (Hv : validate L tx = Err Overflow) by (apply validate_Err_iff; econstructor; eauto).
  unfold submit. by rewrite Hv.
Qed.

(** ** Nonces *)

(** Over any sequence of submissions, the applied transactions of a
    sender carry the nonces [n, n + 1, ..., n + k - 1] from the sender's
    nonce [n] before the sequence, and the sender's nonce ends at
    [n + k]. *)
Theorem submit_all_nonces L txs rs L' s :
  submit_all L txs = (rs, L') ->
  applied_nonces s rs = seqN (getNonce L s) (length (applied_nonces s rs)) /\
  getNonce L' s = getNonce L s + N.of_nat (length (applied_nonces s rs)).
Proof.
  revert L rs L'. induction txs as [|tx txs IH]; intros L rs L' H; simpl in H.
  - simplify_eq. simpl. split; [done | lia].
  - destruct (submit L tx) as [r L1] eqn:E1.
    destruct (submit_all L1 txs) as [rs1 L2] eqn:E2. simplify_eq.
    destruct (IH _ _ _ E2) as [Hseq Hn].
    rewrite applied_nonces_cons.
    destruct (submit_nonce_step _ _ _ _ s E1) as [[-> Hn1] | [-> Hn1]]; simpl;
      rewrite Hn1 in Hseq, Hn; split; try done; try lia.
    by f_equal.
Qed.

(** Nonces never decrease along a sequence of submissions. *)
Lemma submit_all_nonce_ge L txs rs L' s :
  submit_all L txs = (rs, L') -> getNonce L s <= getNonce L' s.
Proof.
  revert L rs L'. induction txs as [|tx txs IH]; intros L rs L' H; simpl in H.
  - simplify_eq. lia.
  - destruct (submit L tx) as [r L1] eqn:E1.
    destruct (submit_all L1 txs) as [rs1 L2] eqn:E2. simplify_eq.
    pose proof (IH _ _ _ E2).
    destruct (submit_nonce_step _ _ _ _ s E1) as [[_ Hn1] | [_ Hn1]]; lia.
Qed.

(** A transaction once applied is rejected with [NonceMismatch] if
    it is submitted again, after any number of other submissions. *)
Theorem replay_rejected L tx r L1 txs rs L2 :
  submit L tx = (r, L1) -> status r = Applied -> submit_all L1 txs = (rs, L2) ->
  status (submit L2 tx).1 = Rejected NonceMismatch.
Proof.
  intros H1 Hst H2.
  destruct (submit_Applied _ _ _ _ H1 Hst) as (s & Hs & Hn & Hg & -> & Ha).
  apply applyTransfer_refines in Ha.
  pose proof (ts_nonce _ _ _ _ _ _ Ha s) as Hn1. rewrite decide_True in Hn1 by done.
  pose proof (submit_all_nonce_ge _ _ _ _ s H2) as Hn2.
  assert (Hv : validate L2 tx = Err NonceMismatch).
  { apply validate_Err_iff. eapply rej_nonce; [done | done | lia]. }
  unfold submit. by rewrite Hv.
Qed.

(** ** Balance-equivalent ledgers *)

(** The verdict of the validator reads only the signer's balance and
    nonce. *)
Lemma validate_bal_eq L L' tx :
  bal_eq L L' -> (forall s, sender_of tx = Some s -> getNonce L s = getNonce L' s) ->
  validate L tx = validate L' tx.
Proof.
  intros Hb Hn. unfold validate.
  destruct (recoverAddress (signature tx) (payload tx)) as [s|] eqn:Hr; [|done].
  destruct (addr_wf s) eqn:Hwf; [|done].
  assert (Hs : sender_of tx = Some s) by (unfold sender_of; by rewrite Hr, Hwf).
  simpl. by rewrite (Hn s Hs), (Hb s).
Qed.

(** The engine gives the same receipt on balance-equivalent ledgers
    that agree on the signer's nonce, and leaves balance-equivalent
    ledgers. *)
Lemma submit_bal_eq L L' tx :
  bal_eq L L' -> (forall s, sender_of tx = Some s -> getNonce L s = getNonce L' s) ->
  (submit L tx).1 = (submit L' tx).1 /\ bal_eq (submit L tx).2 (submit L' tx).2.
Proof.
  intros Hb Hn. unfold submit. rewrite (validate_bal_eq L L' tx Hb Hn).
  destruct (validate L' tx) as [v|e]; [|done].
  pose proof (applyTransfer_bal_eq L L' (v_sender v) (recipient (payload tx))
                (Z.to_N (value (payload tx))) (MINIMUM_TRANSFER_GAS * gasPrice (payload tx)) Hb) as H.
  destruct (applyTransfer L _ _ _ _), (applyTransfer L' _ _ _ _); simpl; subst; done.
Qed.

End Engine.

Arguments Receipt {SP}.

(** ** Scenarios of spec section 8, on the test signer *)

Module EngineScenarios.
Import TestSigner.
#[local] Existing Instance test_signer.

Definition genesis_AB : Ledger := ledger_of_genesis [(1, 10000000); (2, 10000000)].

(** A (key 1) sends 1000 to B (address 2); then B (key 2) sends 2000 to A. *)
Definition tx_A_to_B : Transaction := signTx (mkPayload 0 2 1000%Z 21000 1 []) 1.
Definition tx_B_to_A : Transaction := signTx (mkPayload 0 1 2000%Z 21000 1 []) 2.

(** An account holding 100 tries to move 50 with 21000 gas at price 1. *)
Definition genesis_poor : Ledger := ledger_of_genesis [(3, 100)].
Definition tx_poor : Transaction := signTx (mkPayload 0 1 50%Z 21000 1 []) 3.

(** A transaction whose charge exceeds the 256-bit domain. *)
Definition tx_huge : Transaction := signTx (mkPayload 0 2 (2 ^ 256)%Z 21000 1 []) 1.

(** A rejection verdict computed by the validator makes [submit] return
    the rejected receipt and the ledger it was given. *)
Lemma submit_validate_Err L tx e :
  validate L tx = Err e -> submit L tx = (rejected_receipt tx e, L).
Proof. intros Hv. unfold submit. by rewrite Hv. Qed.

(** Scenario A: applied; A pays 1000 + 21000, B gains 1000, A's nonce is 1. *)
Example scenario_A :
  let '(r, L1) := submit genesis_AB tx_A_to_B in
  (status r, getBalance L1 1, getBalance L1 2, getNonce L1 1)
  = (Applied, 9978000, 10001000, 1).
Proof. vm_compute. reflexivity. Qed.

(** Scenario B, continuing A: B's first transaction is applied. *)
Example scenario_B :
  let L1 := (submit genesis_AB tx_A_to_B).2 in
  let '(r, L2) := submit L1 tx_B_to_A in
  (status r, getBalance L2 2, getBalance L2 1, getNonce L2 2)
  = (Applied, 9978000, 9980000, 1).
Proof. vm_compute. reflexivity. Qed.

(** Scenario C: insufficient funds, nothing changes. *)
Example scenario_C :
  submit genesis_poor tx_poor = (rejected_receipt tx_poor InsufficientFunds, genesis_poor).
Proof. apply submit_validate_Err. vm_compute. reflexivity. Qed.

(** Scenario D: after scenario A, A's nonce is 1 and a transaction of A
    carrying nonce 0 is refused with [NonceMismatch]. *)
Example scenario_D :
  let L1 := (submit genesis_AB tx_A_to_B).2 in
  submit L1 tx_A_to_B = (rejected_receipt tx_A_to_B NonceMismatch, L1).
Proof. intros L1. apply submit_validate_Err. vm_compute. reflexivity. Qed.

(** ** Witnesses *)

Lemma submit_rejected_atomic_witness :
  (submit genesis_poor tx_poor).2 = genesis_poor /\
  gasUsed (submit genesis_poor tx_poor).1 = 0 /\
  totalCost (submit genesis_poor tx_poor).1 = 0.
Proof.
  apply (submit_rejected_atomic genesis_poor tx_poor _ _ InsufficientFunds);
    [apply surjective_pairing | vm_compute; reflexivity].
Defined.

Lemma submit_all_conservation_witness :
  let '(rs, L') := submit_all genesis_AB [tx_A_to_B; tx_B_to_A; tx_A_to_B] in
  total_supply L' + fees rs = total_supply genesis_AB.
Proof.
  destruct (submit_all genesis_AB _) as [rs L'] eqn:E.
  exact (submit_all_conservation _ _ _ _ E).
Defined.

Lemma submit_applied_spec_witness :
  exists s, signed_by tx_A_to_B s /\
    gasUsed (submit genesis_AB tx_A_to_B).1 = MINIMUM_TRANSFER_GAS /\
    totalCost (submit genesis_AB tx_A_to_B).1 = transfer_fee tx_A_to_B /\
    transfer_spec genesis_AB s 2 1000 (transfer_fee tx_A_to_B) (submit genesis_AB tx_A_to_B).2.
Proof.
  apply (submit_applied_spec genesis_AB tx_A_to_B);
    [apply surjective_pairing | vm_compute; reflexivity].
Defined.

Lemma submit_status_validate_witness :
  status (submit genesis_AB tx_A_to_B).1
  = match validate genesis_AB tx_A_to_B with Ok _ => Applied | Err e => Rejected e end.
Proof.
  apply submit_status_validate. unfold ledger_bounded. vm_compute. discriminate.
Defined.

Lemma submit_overflow_rejected_witness :
  submit genesis_AB tx_huge = (rejected_receipt tx_huge Overflow, genesis_AB).
Proof.
  apply (submit_overflow_rejected genesis_AB tx_huge 1);
    [split; vm_compute; reflexivity | vm_compute; discriminate
    | reflexivity | vm_compute; reflexivity].
Defined.

Lemma submit_all_nonces_witness :
  let '(rs, L') := submit_all genesis_AB [tx_A_to_B; tx_B_to_A; tx_A_to_B] in
  applied_nonces 1 rs = seqN (getNonce genesis_AB 1) (length (applied_nonces 1 rs)) /\
  getNonce L' 1 = getNonce genesis_AB 1 + N.of_nat (length (applied_nonces 1 rs)).
Proof.
  destruct (submit_all genesis_AB _) as [rs L'] eqn:E.
  exact (submit_all_nonces _ _ _ _ 1 E).
Defined.

Lemma replay_rejected_witness :
  status (submit (submit_all (submit genesis_AB tx_A_to_B).2 [tx_B_to_A]).2 tx_A_to_B).1
  = Rejected NonceMismatch.
Proof.
  apply (replay_rejected genesis_AB tx_A_to_B (submit genesis_AB tx_A_to_B).1 (submit genesis_AB tx_A_to_B).2
           [tx_B_to_A] (submit_all (submit genesis_AB tx_A_to_B).2 [tx_B_to_A]).1);
    [apply surjective_pairing | vm_compute; reflexivity | apply surjective_pairing].
Defined.

End EngineScenarios.

End ExecutionEngine.
