(* ===== verification/Committer.v ===== *)
(** * BlockCommitter (spec section 4.4)

    The chain is a list of blocks, oldest first; a block carries its
    index, the (transaction, receipt) pairs it commits and a snapshot of
    the ledger after them.  [commit] appends a block whose index is the
    chain's length, even for an empty batch; [balanceAt] answers a
    balance query against the snapshot of a given height and reports
    [BlockNotFound] past the end; [currentIndex] is the height of the
    last block, [None] on the empty chain.  In the program these are the
    simulated backend's [Commit] and [BalanceAt] ([src/main.go] lines
    126, 203 and 249).

    The theorems: the chain stays well indexed, committed blocks and the
    answers of [balanceAt] about them never change, the new block
    answers with the ledger it was given, and [BlockNotFound] is
    returned exactly beyond the chain. *)

From S2P Require Import Prelude Ledger Validator Engine.
Import AccountLedger TransactionValidator ExecutionEngine.
Open Scope N_scope.

Module BlockCommitter.

Section Committer.
Context `{SP : SigningProvider}.

Record Block := mkBlock {
  index : N;
  transactions : list (Transaction * Receipt);
  ledgerDigest : Ledger
}.

Definition commit (C : list Block) (batch : list (Transaction * Receipt)) (L : Ledger)
    : Block * list Block :=
  let b := mkBlock (N.of_nat (length C)) batch (snapshot L) in
  (b, C ++ [b]).

Definition balanceAt (C : list Block) (a : Address) (i : N) : result N TxError :=
  match C !! N.to_nat i with
  | Some b => Ok (getBalance (ledgerDigest b) a)
  | None => Err BlockNotFound
  end.

Definition currentIndex (C : list Block) : option N :=
  match length C with
  | O => None
  | S n => Some (N.of_nat n)
  end.

(** Every block sits at the height its index says. *)
Definition chain_wf (C : list Block) : Prop :=
  forall i b, C !! i = Some b -> index b = N.of_nat i.

(** ** Lemmas *)

Lemma commit_lookup_old C batch L i :
  (i < length C)%nat -> (commit C batch L).2 !! i = C !! i.
Proof. intros Hi. simpl. by apply lookup_app_l. Qed.

Lemma commit_lookup_new C batch L :
  (commit C batch L).2 !! length C = Some (commit C batch L).1.
Proof. simpl. rewrite lookup_app_r by lia. by rewrite Nat.sub_diag. Qed.

Lemma commit_length C batch L : length (commit C batch L).2 = S (length C).
Proof. simpl. rewrite length_app. simpl. lia. Qed.

(** ** Theorems *)

(** Committing keeps the chain well indexed: the new block gets
    the next height. *)
Theorem commit_wf C batch L :
  chain_wf C -> chain_wf (commit C batch L).2.
Proof.
  intros Hwf i b Hb. simpl in Hb.
  destruct (decide (i < length C)%nat) as [Hi|Hi].
  - rewrite lookup_app_l in Hb by done. by apply Hwf.
  - rewrite lookup_app_r in Hb by lia.
    destruct (i - length C)%nat as [|k] eqn:Ek; simpl in Hb; [|by rewrite lookup_nil in Hb].
    simplify_eq. simpl. f_equal. lia.
Qed.

(** History is immutable: every query about a height that existed
    before a commit gets the same answer after it. *)
Theorem commit_preserves_history C batch L a i :
  (N.to_nat i < length C)%nat ->
  balanceAt (commit C batch L).2 a i = balanceAt C a i.
Proof. intros Hi. unfold balanceAt. by rewrite commit_lookup_old. Qed.

(** The new block answers with the balances of the ledger committed. *)
Lemma balanceAt_commit_new C batch L a :
  balanceAt (commit C batch L).2 a (N.of_nat (length C)) = Ok (getBalance L a).
Proof. unfold balanceAt. rewrite Nat2N.id, commit_lookup_new. reflexivity. Qed.

(** [balanceAt] fails, with [BlockNotFound], exactly for heights
    at or beyond the chain's length; it never falls back to the latest
    block. *)
Theorem balanceAt_BlockNotFound C a i :
  balanceAt C a i = Err BlockNotFound <-> (length C <= N.to_nat i)%nat.
Proof.
  unfold balanceAt. rewrite <- lookup_ge_None.
  destruct (C !! N.to_nat i); split; congruence.
Qed.

Lemma currentIndex_commit C batch L :
  currentIndex (commit C batch L).2 = Some (index (commit C batch L).1).
Proof. unfold currentIndex. by rewrite commit_length. Qed.

End Committer.

Arguments Block {SP}.

Module CommitterExamples.
Import TestSigner.
#[local] Existing Instance test_signer.

Definition chain1 : list Block := [mkBlock 0 [] (ledger_of_genesis [(1, 100)])].

Lemma commit_preserves_history_witness :
  balanceAt (commit chain1 [] ∅).2 1 0 = balanceAt chain1 1 0.
Proof. apply commit_preserves_history. cbn. lia. Defined.

End CommitterExamples.

End BlockCommitter.
