(* ===== verification/Backend.v ===== *)
(** * The simulated backend: engine and committer together

    [src/main.go] drives go-ethereum's [backends.SimulatedBackend]
    through six calls: [NewSimulatedBackend] (lines 78 and 173),
    [PendingNonceAt] (90, 167), [SendTransaction] (120, 196), [Commit]
    (126, 203), [BalanceAt] (249) and [Close] (139).  The backend's state is the
    working ledger (its "pending state"), the batch of transactions
    applied since the last commit, and the chain.  As in go-ethereum the
    genesis allocation is committed as block 0 when the backend is
    created, so the first [Commit] produces block 1.

    The calls are composed from the components' operations as the
    specification's data flow says (validator and engine on the ledger,
    committer snapshotting it).  [backend_step] is the step relation of
    the two state-changing calls and [reachable] its closure from a
    genesis; by rule induction the file proves conservation of value at
    every block height, the boundedness of the working ledger and that
    the chain only ever grows at its end. *)

From S2P Require Import Prelude Ledger Validator Engine Committer.
From Stdlib Require String.
Import AccountLedger TransactionValidator ExecutionEngine BlockCommitter.
Open Scope N_scope.

Module SimulatedBackend.

Section Backend.
Context `{SP : SigningProvider}.

Record Backend := mkBackend {
  ledger : Ledger;
  pending : list (Transaction * Receipt);
  chain : list Block
}.

Definition NewSimulatedBackend (genesis : list (Address * N)) : Backend :=
  let L := ledger_of_genesis genesis in
  mkBackend L [] (commit [] [] L).2.

(** Submit to the engine; an applied transaction joins the pending
    batch, a rejected one is reported as the call's error and changes
    nothing. *)
Definition SendTransaction (B : Backend) (tx : Transaction) : result unit TxError * Backend :=
  let '(r, L') := submit (ledger B) tx in
  match status r with
  | Applied => (Ok tt, mkBackend L' (pending B ++ [(tx, r)]) (chain B))
  | Rejected e => (Err e, B)
  end.

Definition Commit (B : Backend) : Backend :=
  mkBackend (ledger B) [] (commit (chain B) (pending B) (ledger B)).2.

Definition PendingNonceAt (B : Backend) (a : Address) : N := getNonce (ledger B) a.

Definition BalanceAt (B : Backend) (a : Address) (blockNumber : N) : result N TxError :=
  balanceAt (chain B) a blockNumber.

(** [Close] stops the backend's chain; the simulated backend reports no
    error.  Nothing [main] reads afterwards depends on the stopped chain
    ([PendingNonceAt] reads the pending state). *)
Definition Close (B : Backend) : result unit String.string := Ok tt.

(** ** Steps and reachability *)

Inductive backend_step : Backend -> Backend -> Prop :=
| step_send B tx : backend_step B (SendTransaction B tx).2
| step_commit B : backend_step B (Commit B).

Inductive reachable (genesis : list (Address * N)) : Backend -> Prop :=
| reach_init : reachable genesis (NewSimulatedBackend genesis)
| reach_step B B' : reachable genesis B -> backend_step B B' -> reachable genesis B'.

(** ** Fees recorded in batches and blocks *)

Definition batch_fees (batch : list (Transaction * Receipt)) : N :=
  foldr (fun p acc => totalCost p.2 + acc) 0 batch.

Definition chain_fees (C : list Block) : N :=
  foldr (fun b acc => batch_fees (transactions b) + acc) 0 C.

Definition genesis_supply (genesis : list (Address * N)) : N :=
  total_supply (ledger_of_genesis genesis).

(** The backend invariant: a well-indexed chain, conservation at every
    committed height, and conservation for the working ledger. *)
Definition backend_inv (genesis : list (Address * N)) (B : Backend) : Prop :=
  chain_wf (chain B) /\
  (forall i b, chain B !! i = Some b ->
     total_supply (ledgerDigest b) + chain_fees (take (S i) (chain B)) = genesis_supply genesis) /\
  total_supply (ledger B) + chain_fees (chain B) + batch_fees (pending B) = genesis_supply genesis.

Lemma batch_fees_app b1 b2 : batch_fees (b1 ++ b2) = batch_fees b1 + batch_fees b2.
Proof. induction b1 as [|p b1 IH]; simpl; lia. Qed.

Lemma chain_fees_app C1 C2 : chain_fees (C1 ++ C2) = chain_fees C1 + chain_fees C2.
Proof. induction C1 as [|b C1 IH]; simpl; lia. Qed.

#[local] Hint Rewrite batch_fees_app chain_fees_app : tp_rw.

Lemma SendTransaction_cases B tx :
  (SendTransaction B tx).2 = B \/
  exists r L', submit (ledger B) tx = (r, L') /\ status r = Applied /\
    (SendTransaction B tx).2 = mkBackend L' (pending B ++ [(tx, r)]) (chain B).
Proof.
  unfold SendTransaction. destruct (submit (ledger B) tx) as [r L'] eqn:E.
  destruct (status r) eqn:Hs; [right; eauto | by left].
Qed.

Lemma new_backend_inv genesis : backend_inv genesis (NewSimulatedBackend genesis).
Proof.
  split; [|split].
  - apply commit_wf. intros i b Hb. by rewrite lookup_nil in Hb.
  - intros [|i] b Hb; simpl in Hb;
      [simplify_eq; simpl; unfold genesis_supply, snapshot; lia | discriminate].
  - simpl. unfold genesis_supply. lia.
Qed.

Lemma send_inv genesis B tx :
  backend_inv genesis B -> backend_inv genesis (SendTransaction B tx).2.
Proof.
  intros Hinv. destruct (SendTransaction_cases B tx) as [-> | (r & L' & E & _ & ->)]; [done|].
  destruct Hinv as (Hwf & Hhist & Hcur). apply submit_conservation in E.
  split; [done | split; [done|]]. simpl in *. autorewrite with tp_rw. simpl. lia.
Qed.

Lemma commit_inv genesis B :
  backend_inv genesis B -> backend_inv genesis (Commit B).
Proof.
  intros (Hwf & Hhist & Hcur). split; [|split].
  - by apply commit_wf.
  - intros i b Hb. simpl in *.
    destruct (decide (i < length (chain B))%nat) as [Hi|Hi].
    + rewrite lookup_app_l in Hb by done. rewrite take_app_le by lia. by apply Hhist.
    + rewrite lookup_app_r in Hb by lia.
      destruct (i - length (chain B))%nat as [|k] eqn:Ek; simpl in Hb;
        [|by rewrite lookup_nil in Hb].
      simplify_eq. rewrite take_ge by (rewrite length_app; simpl; lia).
      autorewrite with tp_rw. simpl. unfold snapshot. lia.
  - simpl in *. autorewrite with tp_rw. simpl. lia.
Qed.

Lemma reachable_inv genesis B : reachable genesis B -> backend_inv genesis B.
Proof.
  induction 1 as [|B B' _ IH Hstep]; [apply new_backend_inv|].
  destruct Hstep; [by apply send_inv | by apply commit_inv].
Qed.

Lemma step_chain_prefix B B' :
  backend_step B B' -> exists ext, chain B' = chain B ++ ext.
Proof.
  destruct 1 as [B tx | B].
  - destruct (SendTransaction_cases B tx) as [-> | (r & L' & _ & _ & ->)];
      exists []; by rewrite app_nil_r.
  - by eexists.
Qed.

(** Any number of backend calls. *)
Inductive steps : Backend -> Backend -> Prop :=
| steps_refl B : steps B B
| steps_cons B B' B'' : backend_step B B' -> steps B' B'' -> steps B B''.

Lemma steps_chain_prefix B B' :
  steps B B' -> exists ext, chain B' = chain B ++ ext.
Proof.
  induction 1 as [B|B B' B'' Hstep _ (ext & IH)]; [exists []; by rewrite app_nil_r|].
  destruct (step_chain_prefix _ _ Hstep) as (ext' & E).
  exists (ext' ++ ext). by rewrite IH, E, app_assoc.
Qed.

(** ** Theorems *)

(** Conservation at every block height: for every block of a
    reachable backend, the balances of its snapshot plus the fees of all
    blocks up to and including it equal the genesis supply; fees leave
    circulation and nothing else does. *)
Theorem backend_conservation genesis B i b :
  reachable genesis B -> chain B !! i = Some b ->
  total_supply (ledgerDigest b) + chain_fees (take (S i) (chain B)) = genesis_supply genesis.
Proof. intros HB Hb. by apply (reachable_inv genesis B HB). Qed.

(** If the genesis supply fits the value domain, the working ledger
    of every reachable backend does, and so does every block's snapshot:
    no balance ever leaves the 256-bit domain. *)
Theorem backend_bounded genesis B :
  ledger_bounded (ledger_of_genesis genesis) -> reachable genesis B ->
  ledger_bounded (ledger B) /\
  forall i b, chain B !! i = Some b -> ledger_bounded (ledgerDigest b).
Proof.
  unfold ledger_bounded. intros Hg HB.
  destruct (reachable_inv genesis B HB) as (_ & Hhist & Hcur).
  unfold genesis_supply in *. split; [lia|].
  intros i b Hb. specialize (Hhist i b Hb). lia.
Qed.

Lemma reachable_nonempty genesis B : reachable genesis B -> chain B <> [].
Proof.
  induction 1 as [|B B' _ IH Hstep]; [discriminate|].
  destruct (step_chain_prefix _ _ Hstep) as (ext & ->).
  destruct (chain B); [done | discriminate].
Qed.

(** Every reachable backend has a non-empty, well-indexed chain
    (block [i] carries index [i]) and its current index is the height of
    its last block. *)
Theorem reachable_chain_wf genesis B :
  reachable genesis B ->
  chain_wf (chain B) /\ currentIndex (chain B) = Some (N.of_nat (length (chain B) - 1)).
Proof.
  intros HB. split; [apply (reachable_inv genesis B HB)|].
  pose proof (reachable_nonempty genesis B HB) as Hne.
  unfold currentIndex. destruct (length (chain B)) eqn:E.
  - apply nil_length_inv in E. contradiction.
  - f_equal. lia.
Qed.

(** The chain is append-only: after any sequence of backend calls,
    a balance query about a height that already existed gets the same
    answer. *)
Theorem history_immutable B B' a i :
  steps B B' -> (N.to_nat i < length (chain B))%nat ->
  BalanceAt B' a i = BalanceAt B a i.
Proof.
  intros Hs Hi. destruct (steps_chain_prefix _ _ Hs) as (ext & E).
  unfold BalanceAt, balanceAt. rewrite E. by rewrite lookup_app_l.
Qed.

Lemma SendTransaction_Ok B tx u B' :
  SendTransaction B tx = (Ok u, B') ->
  exists r, submit (ledger B) tx = (r, ledger B') /\ status r = Applied /\
    B' = mkBackend (ledger B') (pending B ++ [(tx, r)]) (chain B).
Proof.
  unfold SendTransaction. destruct (submit (ledger B) tx) as [r L'] eqn:E.
  destruct (status r) eqn:Hs; intros H; simplify_eq; eauto.
Qed.

Lemma SendTransaction_Err B tx e B' :
  SendTransaction B tx = (Err e, B') ->
  B' = B /\ status (submit (ledger B) tx).1 = Rejected e.
Proof.
  unfold SendTransaction. destruct (submit (ledger B) tx) as [r L'] eqn:E.
  destruct (status r) eqn:Hs; intros H; simplify_eq; auto.
Qed.

Lemma new_backend_chain genesis :
  chain (NewSimulatedBackend genesis) = [mkBlock 0 [] (ledger_of_genesis genesis)].
Proof. reflexivity. Qed.

(** After one applied transaction on a fresh backend and a commit, block
    1 holds that transaction and the ledger after it. *)
Lemma fresh_send_commit genesis tx u B' :
  SendTransaction (NewSimulatedBackend genesis) tx = (Ok u, B') ->
  exists r, status r = Applied /\
    chain (Commit B') = [mkBlock 0 [] (ledger_of_genesis genesis); mkBlock 1 [(tx, r)] (ledger B')] /\
    submit (ledger_of_genesis genesis) tx = (r, ledger B').
Proof.
  intros H. apply SendTransaction_Ok in H as (r & Hs & Ha & HB).
  exists r. split; [done|]. split; [|done].
  rewrite HB. reflexivity.
Qed.

End Backend.

Arguments Backend {SP}.

(** ** Witnesses *)

Module BackendExamples.
Import TestSigner.
#[local] Existing Instance test_signer.

Definition g_AB : list (Address * N) := [(1, 10000000); (2, 10000000)].
Definition tx_AB : Transaction := signTx (mkPayload 0 2 1000%Z 21000 1 []) 1.
Definition B_init : Backend := NewSimulatedBackend g_AB.
Definition B_sent : Backend := (SendTransaction B_init tx_AB).2.
Definition B_committed : Backend := Commit B_sent.
Definition block1 : Block := default (mkBlock 0 [] ∅) (chain B_committed !! 1%nat).

Lemma reachable_committed : reachable g_AB B_committed.
Proof.
  apply (reach_step _ B_sent); [|apply step_commit].
  apply (reach_step _ B_init); [apply reach_init | apply step_send].
Qed.

Lemma steps_committed : steps B_init B_committed.
Proof.
  apply (steps_cons _ B_sent); [apply step_send|].
  apply (steps_cons _ B_committed); [apply step_commit | apply steps_refl].
Qed.

Lemma block1_lookup : chain B_committed !! 1%nat = Some block1.
Proof.
  unfold block1. destruct (chain B_committed !! 1%nat) eqn:E; [reflexivity|].
  apply lookup_ge_None in E.
  assert (length (chain B_committed) = 2%nat) by (vm_compute; reflexivity). lia.
Qed.

Lemma reachable_chain_wf_witness :
  chain_wf (chain B_committed) /\
  currentIndex (chain B_committed) = Some (N.of_nat (length (chain B_committed) - 1)).
Proof. exact (reachable_chain_wf g_AB B_committed reachable_committed). Defined.

Lemma backend_conservation_witness :
  total_supply (ledgerDigest block1) + chain_fees (take 2 (chain B_committed)) = genesis_supply g_AB.
Proof. exact (backend_conservation g_AB B_committed 1%nat block1 reachable_committed block1_lookup). Defined.

Lemma backend_bounded_witness :
  ledger_bounded (ledger B_committed) /\
  forall i b, chain B_committed !! i = Some b -> ledger_bounded (ledgerDigest b).
Proof.
  apply (backend_bounded g_AB B_committed); [|exact reachable_committed].
  unfold ledger_bounded. vm_compute. discriminate.
Defined.

Lemma history_immutable_witness : BalanceAt B_committed 1 0 = BalanceAt B_init 1 0.
Proof. apply (history_immutable B_init B_committed 1 0 steps_committed). cbn. lia. Defined.

End BackendExamples.

End SimulatedBackend.
