(* ===== verification/Cli.v ===== *)
(** * Console input and output of [src/main.go]

    The helpers at the end of [main.go] and the conversions [main] applies
    to what they return:
    - [getAmount] and [getGasLimit] (lines 221-234) print a prompt and
      read an [int64] with [fmt.Scanln]; when scanning fails (no number,
      or a number outside the int64 range) the variable keeps its zero
      value.  [scanInt64] models that read: the console line is given as
      the integer it spells ([None] when it spells none).
    - [uint64(limit)] (lines 103, 181) reinterprets the int64 as a
      uint64: [to_uint64], arithmetic modulo 2^64.
    - [big.Int]'s [String] and [SetString(s, 10)] (lines 55, 259) are
      decimal printing and parsing: [bigString] and [SetString], built on
      [N_to_dec] (repeated division by ten, with fuel one more than the
      bit length of the number) and [parse_dec].
    - [printBalance] (lines 258-260) formats [%10v]: the decimal string
      padded on the left with spaces to width 10.

    [dec_string] is a reference decimal printer, defined with Equations
    by well-founded recursion on the number.

    The theorems:
    - [bigString], on [N_to_dec]'s fuelled loop, equals the reference
      rendering on every integer, so the fuel is always enough;
    - printing and parsing are inverse ([SetString_bigString]);
    - a printed balance line holds a field of width [max 10 n] that
      parses back to the balance;
    - a gas limit read from the console is an int64, and [uint64(limit)]
      keeps a non-negative one and wraps a negative one to at least 2^63. *)

From S2P Require Import Prelude.
From Stdlib Require Import String Ascii.
From Equations Require Import Equations.
Open Scope N_scope.

Module GoConsole.

(** ** Decimal digits *)

Definition digit_char (d : N) : ascii := ascii_of_N (48 + d).

Definition char_digit (c : ascii) : option N :=
  let k := N_of_ascii c in
  if (48 <=? k) && (k <=? 57) then Some (k - 48) else None.

(** Digits of [n] prepended to [acc], least significant first. *)
Fixpoint dec_digits (fuel : nat) (n : N) (acc : string) : string :=
  match fuel with
  | O => acc
  | S f =>
    let acc' := String (digit_char (n mod 10)) acc in
    if n <? 10 then acc' else dec_digits f (n / 10) acc'
  end.

Definition N_to_dec (n : N) : string := dec_digits (S (N.to_nat (N.size n))) n EmptyString.

Fixpoint dec_value (s : string) (acc : N) : option N :=
  match s with
  | EmptyString => Some acc
  | String c s' =>
    match char_digit c with
    | Some d => dec_value s' (10 * acc + d)
    | None => None
    end
  end.

Definition parse_dec (s : string) : option N :=
  match s with
  | EmptyString => None
  | _ => dec_value s 0
  end.

(** [big.Int.String]: decimal, with a minus sign when negative. *)
Definition bigString (z : Z) : string :=
  match z with
  | Zneg p => String "-" (N_to_dec (Npos p))
  | _ => N_to_dec (Z.to_N z)
  end.

(** [big.Int.SetString(s, 10)]: an optional sign, then decimal digits. *)
Definition SetString (s : string) : option Z :=
  match s with
  | EmptyString => None
  | String c s' =>
    if ascii_dec c "-" then option_map (fun n => Z.opp (Z.of_N n)) (parse_dec s')
    else if ascii_dec c "+" then option_map Z.of_N (parse_dec s')
    else option_map Z.of_N (parse_dec s)
  end.

(** ** Formatting *)

Fixpoint spaces (k : nat) : string :=
  match k with
  | O => EmptyString
  | S k' => String " " (spaces k')
  end.

(** [%<w>v] on a string: right-aligned in a field of width [w]. *)
Definition pad_left (w : nat) (s : string) : string :=
  append (spaces (w - String.length s)) s.

Fixpoint trim_left (s : string) : string :=
  match s with
  | String c s' => if ascii_dec c " " then trim_left s' else s
  | EmptyString => EmptyString
  end.

Definition printBalance (cliente : string) (balance : Z) : string :=
  append "BALANCE CLIENTE: "
    (append cliente (append " : " (append (pad_left 10 (bigString balance)) (String "010" EmptyString)))).

(** ** Console reads and integer conversions *)

Definition INT64_MIN : Z := - 2 ^ 63.
Definition INT64_MAX : Z := 2 ^ 63 - 1.

Definition int64_in_range (z : Z) : bool := (INT64_MIN <=? z)%Z && (z <=? INT64_MAX)%Z.

Definition scanInt64 (input : option Z) : Z :=
  match input with
  | Some z => if int64_in_range z then z else 0%Z
  | None => 0%Z
  end.

Definition PROMPT_GAS_LIMIT : string := "Gas limit [Minimo 21000]: ".
Definition PROMPT_AMOUNT : string := "Monto transaccion: ".

(** Each returns the prompt it prints and the value it reads. *)
Definition getGasLimit (input : option Z) : string * Z := (PROMPT_GAS_LIMIT, scanInt64 input).
Definition getAmount (input : option Z) : string * Z := (PROMPT_AMOUNT, scanInt64 input).

Definition to_uint64 (z : Z) : N := Z.to_N (z mod 2 ^ 64).

(** ** Reference decimal printing

    The digits of [n] by well-founded recursion on [n] itself: the
    digits of [n / 10], then the last digit.  This is the definition
    [N_to_dec]'s fuelled loop, which builds the string from the right,
    is proved equal to. *)

Definition inspect {A} (a : A) : {b | a = b} := exist _ a eq_refl.

Equations? dec_string (n : N) : string by wf (N.to_nat n) lt :=
  dec_string n with inspect (n <? 10) := {
    | exist _ true _ := String (digit_char n) EmptyString;
    | exist _ false H := append (dec_string (n / 10)) (String (digit_char (n mod 10)) EmptyString) }.
Proof. apply N.ltb_ge in H. pose proof (N.div_lt n 10 ltac:(lia) ltac:(lia)). lia. Qed.

(** ** Lemmas on digits *)

Lemma char_digit_digit_char d : d < 10 -> char_digit (digit_char d) = Some d.
Proof.
  intros Hd.
  assert (d = 0 \/ d = 1 \/ d = 2 \/ d = 3 \/ d = 4 \/ d = 5 \/ d = 6 \/ d = 7 \/
          d = 8 \/ d = 9) as Hc by lia.
  repeat (destruct Hc as [-> | Hc]; [reflexivity|]). by subst.
Qed.

Lemma digit_char_not_special m :
  m < 10 -> digit_char m <> "-"%char /\ digit_char m <> "+"%char /\ digit_char m <> " "%char.
Proof.
  intros Hm. pose proof (char_digit_digit_char m Hm) as H.
  repeat split; intros E; rewrite E in H; discriminate.
Qed.

Lemma dec_value_digit c s a d :
  char_digit c = Some d -> dec_value (String c s) a = dec_value s (10 * a + d).
Proof. intros H. simpl. by rewrite H. Qed.

(** With [fuel] digits of room, [dec_digits] writes the digits of [n]
    in front of [acc], most significant first. *)
Lemma dec_digits_value fuel n acc a :
  n < 10 ^ N.of_nat fuel ->
  exists k, dec_value (dec_digits fuel n acc) a = dec_value acc (a * 10 ^ k + n).
Proof.
  revert n acc a. induction fuel as [|f IH]; intros n acc a Hn; simpl.
  - exists 0. simpl in Hn. replace (a * 10 ^ 0 + n) with a by (simpl; lia). done.
  - assert (Hd : char_digit (digit_char (n mod 10)) = Some (n mod 10))
      by (apply char_digit_digit_char, N.mod_lt; lia).
    case_N.
    + exists 1. rewrite (dec_value_digit _ _ _ _ Hd), N.mod_small by lia.
      f_equal. simpl. lia.
    + rewrite Nat2N.inj_succ, N.pow_succ_r' in Hn.
      destruct (IH (n / 10) (String (digit_char (n mod 10)) acc) a) as [k Hk].
      { apply N.Div0.div_lt_upper_bound; lia. }
      exists (k + 1). rewrite Hk, (dec_value_digit _ _ _ _ Hd). f_equal.
      pose proof (N.div_mod n 10 ltac:(lia)) as Hdm.
      rewrite N.pow_add_r, N.pow_1_r. lia.
Qed.

Lemma dec_digits_S f n acc :
  dec_digits (S f) n acc =
  if n <? 10 then String (digit_char (n mod 10)) acc
  else dec_digits f (n / 10) (String (digit_char (n mod 10)) acc).
Proof. reflexivity. Qed.

Lemma dec_digits_head fuel n acc :
  exists m s, dec_digits (S fuel) n acc = String (digit_char m) s /\ m < 10.
Proof.
  revert n acc. induction fuel as [|f IH]; intros n acc; rewrite dec_digits_S; case_N;
    try (eexists _, _; split; [reflexivity | apply N.mod_lt; lia]).
  apply IH.
Qed.

(** [N_to_dec]'s fuel, one more than the bit length, covers every digit. *)
Lemma N_to_dec_fuel n : n < 10 ^ N.of_nat (S (N.to_nat (N.size n))).
Proof.
  rewrite Nat2N.inj_succ, N2Nat.id.
  pose proof (N.size_gt n) as H.
  assert (2 ^ N.size n <= 10 ^ N.size n) by (apply N.pow_le_mono_l; lia).
  assert (10 ^ N.size n <= 10 ^ N.succ (N.size n)) by (apply N.pow_le_mono_r; lia).
  lia.
Qed.

(** ** The fuelled loop against the reference *)

Lemma string_append_assoc (s1 s2 s3 : string) :
  append (append s1 s2) s3 = append s1 (append s2 s3).
Proof.
  induction s1 as [|c s1 IH]; [reflexivity|].
  change (String c (append (append s1 s2) s3) = String c (append s1 (append s2 s3))).
  by rewrite IH.
Qed.

Lemma string_append_nil_r (s : string) : append s EmptyString = s.
Proof.
  induction s as [|c s IH]; [reflexivity|].
  change (String c (append s EmptyString) = String c s). by rewrite IH.
Qed.

Lemma dec_string_step n :
  dec_string n =
  if n <? 10 then String (digit_char n) EmptyString
  else append (dec_string (n / 10)) (String (digit_char (n mod 10)) EmptyString).
Proof.
  destruct (N.ltb_spec n 10) as [Hn|Hn]; rewrite dec_string_equation_1;
    destruct (inspect (n <? 10)) as [[|] E]; try reflexivity.
  - pose proof (proj1 (N.ltb_ge n 10) E). lia.
  - pose proof (proj1 (N.ltb_lt n 10) E). lia.
Qed.

Lemma pow10_succ f : 10 ^ N.of_nat (S f) = 10 * 10 ^ N.of_nat f.
Proof. by rewrite Nat2N.inj_succ, N.pow_succ_r'. Qed.

(** With fuel for every digit, the loop prepends the reference digits. *)
Lemma dec_digits_spec f n acc :
  n < 10 ^ N.of_nat (S f) -> dec_digits (S f) n acc = append (dec_string n) acc.
Proof.
  revert n acc. induction f as [|f IH]; intros n acc Hn;
    rewrite dec_digits_S, dec_string_step; case_N.
  - by rewrite N.mod_small.
  - simpl in Hn. lia.
  - by rewrite N.mod_small.
  - rewrite string_append_assoc. simpl. apply IH.
    rewrite pow10_succ in Hn. apply N.Div0.div_lt_upper_bound. lia.
Qed.

Lemma N_to_dec_dec_string n : N_to_dec n = dec_string n.
Proof.
  unfold N_to_dec. rewrite dec_digits_spec by apply N_to_dec_fuel.
  apply string_append_nil_r.
Qed.

Lemma parse_dec_N_to_dec n : parse_dec (N_to_dec n) = Some n.
Proof.
  unfold N_to_dec.
  destruct (dec_digits_head (N.to_nat (N.size n)) n EmptyString) as (m & s & E & _).
  rewrite E. unfold parse_dec. rewrite <- E.
  destruct (dec_digits_value _ n EmptyString 0 (N_to_dec_fuel n)) as [k ->].
  simpl. f_equal; lia.
Qed.

Lemma N_to_dec_head n :
  exists m s, N_to_dec n = String (digit_char m) s /\ m < 10.
Proof. apply dec_digits_head. Qed.

Lemma bigString_head z : exists c s, bigString z = String c s /\ c <> " "%char.
Proof.
  destruct z as [|p|p]; unfold bigString.
  - destruct (N_to_dec_head (Z.to_N 0)) as (m & s & -> & Hm).
    eexists _, _. split; [reflexivity | apply (digit_char_not_special m Hm)].
  - destruct (N_to_dec_head (Z.to_N (Z.pos p))) as (m & s & -> & Hm).
    eexists _, _. split; [reflexivity | apply (digit_char_not_special m Hm)].
  - eexists _, _. split; [reflexivity | discriminate].
Qed.

Lemma trim_left_spaces k s : trim_left (append (spaces k) s) = trim_left s.
Proof. induction k as [|k IH]; [done|]. simpl. by rewrite IH. Qed.

Lemma trim_left_nonspace c s : c <> " "%char -> trim_left (String c s) = String c s.
Proof. intros Hc. simpl. by destruct (ascii_dec c " "). Qed.

Lemma string_length_append s1 s2 :
  String.length (append s1 s2) = (String.length s1 + String.length s2)%nat.
Proof. induction s1 as [|c s1 IH]; simpl; auto. Qed.

Lemma length_spaces k : String.length (spaces k) = k.
Proof. induction k; simpl; auto. Qed.

(** ** Theorems *)

(** Decimal printing and parsing of big integers are inverse:
    [SetString(x.String(), 10)] gives back [x], for every integer,
    negative ones included; in particular [N_to_dec]'s fuel always
    suffices. *)
Theorem SetString_bigString z : SetString (bigString z) = Some z.
Proof.
  destruct z as [|p|p].
  - reflexivity.
  - unfold bigString. destruct (N_to_dec_head (Z.to_N (Z.pos p))) as (m & s & E & Hm).
    destruct (digit_char_not_special m Hm) as (H1 & H2 & _).
    rewrite E. unfold SetString.
    destruct (ascii_dec _ "-"); [done|]. destruct (ascii_dec _ "+"); [done|].
    rewrite <- E, parse_dec_N_to_dec. reflexivity.
  - simpl. rewrite parse_dec_N_to_dec. reflexivity.
Qed.

(** C13: a balance line printed by [printBalance] carries, after the
    fixed prefix, a field of width [max 10 n] ([n] the number of
    characters of the balance) which, stripped of its padding, parses
    back to the balance printed. *)
Theorem printBalance_roundtrip cliente b :
  exists field,
    printBalance cliente b =
      append "BALANCE CLIENTE: " (append cliente (append " : " (append field (String "010" EmptyString)))) /\
    String.length field = Nat.max 10 (String.length (bigString b)) /\
    SetString (trim_left field) = Some b.
Proof.
  exists (pad_left 10 (bigString b)). split; [reflexivity|]. split.
  - unfold pad_left. rewrite string_length_append, length_spaces. lia.
  - unfold pad_left. rewrite trim_left_spaces.
    destruct (bigString_head b) as (c & s & E & Hc).
    rewrite E, trim_left_nonspace by done. rewrite <- E. apply SetString_bigString.
Qed.

(** [uint64(z)] of a negative int64 adds 2^64. *)
Lemma to_uint64_neg z :
  (INT64_MIN <= z < 0)%Z -> Z.of_N (to_uint64 z) = (z + 2 ^ 64)%Z.
Proof.
  unfold to_uint64, INT64_MIN. intros Hz.
  rewrite Z2N.id by (apply Z.mod_pos_bound; lia).
  rewrite <- (Z.mod_small (z + 2 ^ 64) (2 ^ 64)) by lia.
  rewrite <- Z.add_mod_idemp_r, Z.mod_same, Z.add_0_r by lia. reflexivity.
Qed.

(** C12: what [getGasLimit] returns is an int64, and [uint64(limit)]
    keeps a non-negative limit and wraps a negative one to at least
    2^63: a negative console entry becomes a huge gas limit, never one
    below the 21000 minimum. *)
Theorem getGasLimit_uint64 input :
  let limit := (getGasLimit input).2 in
  int64_in_range limit = true /\
  (0 <= limit -> Z.of_N (to_uint64 limit) = limit)%Z /\
  ((limit < 0)%Z -> 2 ^ 63 <= to_uint64 limit /\ Z.of_N (to_uint64 limit) = (limit + 2 ^ 64)%Z).
Proof.
  simpl. unfold scanInt64, to_uint64, int64_in_range, INT64_MIN, INT64_MAX.
  destruct input as [z|]; [|simpl; lia].
  destruct ((- 2 ^ 63 <=? z)%Z && (z <=? 2 ^ 63 - 1)%Z) eqn:Hr; [|simpl; lia].
  pose proof Hr as Hr'. apply andb_true_iff in Hr' as [H1 H2]. apply Z.leb_le in H1, H2.
  split; [exact Hr|]. split.
  - intros Hz. rewrite Z2N.id by (apply Z.mod_pos_bound; lia). apply Z.mod_small. lia.
  - intros Hz. pose proof (to_uint64_neg z) as Hm.
    unfold to_uint64, INT64_MIN in Hm. rewrite Hm by lia. split; lia.
Qed.

(** C14: what [big.Int.String] prints (lines 238-242, 259) is the
    reference decimal rendering: a minus sign for a negative number, then
    the digits of its magnitude, computed by well-founded recursion
    instead of [N_to_dec]'s fuelled loop. *)
Theorem bigString_dec_string z :
  bigString z =
  if (z <? 0)%Z then String "-" (dec_string (Z.to_N (- z))) else dec_string (Z.to_N z).
Proof. destruct z as [|p|p]; unfold bigString; simpl; by rewrite N_to_dec_dec_string. Qed.

End GoConsole.
