(* ===== verification/Main.v ===== *)
(** * The [main] function of [src/main.go]

    [main] (lines 23-218) runs in three phases:
    - [setup] (lines 32-78): two key pairs, a genesis allocation giving
      both addresses the balance parsed from ["10000000"], the initial
      printout, and a simulated backend on that genesis;
    - [phase1] (lines 89-146): A's pending nonce, amount and gas limit
      from the console, [NewTransaction] to B at gas price 1, [SignTx],
      [SendTransaction] (on error: print ["ERROR Gas insuficiente"] and
      return), [Commit], the balances of A and B at block 1, the first
      transaction of the current block and its printout;
    - [phase2] (lines 155-217): a second genesis holding the balances
      read after phase 1, B's nonce read from the first backend, a new
      backend on the second genesis, and the same steps for a transfer
      from B to A (on error: print the error and return).
    Output is the list of strings the program prints; a [return] ends
    the computation early and a [panic] is caught by the deferred
    [recover] (lines 24-31), which prints ["ERROR: "] and the message.
    The [Go] type below is that writer-with-exit effect.

    Keys are section variables (they come from [crypto.GenerateKey]), as
    are the hexadecimal rendering of an address ([Address.String], an
    EIP-55 checksum not modelled) and the text of the backend's errors.
    Console lines are given as the integers they spell ([Console]).

    [types.NewTransaction] only assembles its fields and never fails;
    the amount keeps its sign, and the validator behind
    [SendTransaction] decides.

    The theorems follow the code:
    - [send_step] against the validator and the engine: success and
      failure, what an applied send does, nonce, replay, the gas
      boundary, negative gas limits, the printed Cost against the debit,
      and commit of the sent transaction by the next [Commit];
    - [main] as a whole: no panic, its last line, the clients' final
      balances, the final backend, the nonces around the rebuilt
      backend, and refinement of one persistent ledger receiving the two
      transactions [main] signs;
    - witnesses on the spec's scenarios, in [MainScenarios]. *)

From S2P Require Import Prelude Ledger Validator Engine Committer Backend Cli.
From Stdlib Require Import String Ascii.
Import AccountLedger TransactionValidator ExecutionEngine BlockCommitter
       SimulatedBackend GoConsole.
Open Scope N_scope.

Module TPMain.

(** ** Go's control effects: printing, [return] and [panic] *)

Inductive Exit := Return | Panic (msg : string).

Definition Go (A : Type) : Type := (list string * result A Exit)%type.

Definition go_ret {A} (a : A) : Go A := ([], Ok a).

Definition go_bind {A B} (m : Go A) (k : A -> Go B) : Go B :=
  match m with
  | (out, Ok a) => let '(out', r) := k a in (out ++ out', r)
  | (out, Err e) => (out, Err e)
  end.

Definition go_print (s : string) : Go unit := ([s], Ok tt).
Definition go_exit {A} (e : Exit) : Go A := ([], Err e).

Declare Scope go_scope.
Notation "'let!' x ':=' m 'in' k" := (go_bind m (fun x => k))
  (at level 10, x name, m at level 100, k at level 200) : go_scope.
Notation "m ';;' k" := (go_bind m (fun _ => k))
  (at level 100, k at level 200, right associativity) : go_scope.
Open Scope go_scope.

Definition NL : string := String "010"%char EmptyString.

(** The outcome of a [Go] computation, seen through [go_bind]. *)
Lemma go_bind_snd {A B} (m : Go A) (k : A -> Go B) :
  (go_bind m k).2 = match m.2 with Ok a => (k a).2 | Err e => Err e end.
Proof. destruct m as [o [a|e]]; simpl; [destruct (k a)|]; reflexivity. Qed.

Lemma go_bind_fst {A B} (m : Go A) (k : A -> Go B) :
  (go_bind m k).1 = m.1 ++ match m.2 with Ok a => (k a).1 | Err _ => [] end.
Proof.
  destruct m as [o [a|e]]; simpl; [destruct (k a)|]; simpl; by rewrite ?app_nil_r.
Qed.

Section Main.
Context `{SP : SigningProvider}.
Variable addressString : Address -> string.
Variable errorString : TxError -> string.
Variables privateKeyA privateKeyB : PrivateKey.

Definition addrA : Address := pubAddress privateKeyA.
Definition addrB : Address := pubAddress privateKeyB.

(** The four console reads, in order. *)
Record Console := mkConsole {
  amount1 : option Z; limit1 : option Z; amount2 : option Z; limit2 : option Z
}.

(** [balance.SetString("10000000", 10)] on a fresh [big.Int]. *)
Definition initial_balance : Z := default 0%Z (SetString "10000000").

(** The genesis allocations of lines 58-67 and 155-164. *)
Definition genesisChain (balA balB : Z) : list (Address * N) :=
  [(addrA, Z.to_N balA); (addrB, Z.to_N balB)].

(** [types.NewTransaction(nonce, to, amount, gasLimit, gasPrice, data)]
    with [data] nil: it only assembles the fields and never fails.  The
    amount is the signed [*big.Int] of [big.NewInt(a)]; a negative one is
    carried as it is (the validator refuses it). *)
Definition NewTransaction (nonce : N) (to : Address) (amount : Z) (gasLimit gasPrice : N)
    : TxPayload :=
  mkPayload nonce to amount gasLimit gasPrice [].

(** Lines 103-109 (and 181-187): the transaction built from the console's
    amount and gas limit, [uint64(limit)], at gas price [big.NewInt(1)]. *)
Definition send_payload (nonce : N) (to : Address) (amount limit : Z) : TxPayload :=
  NewTransaction nonce to amount (to_uint64 limit) 1.

(** Lines 103-120 (and 181-196): build, sign ([types.SignTx]) and send a
    transaction; the backend's error is the call's error. *)
Definition send_step (B : Backend) (nonce : N) (to : Address) (key : PrivateKey)
    (amount limit : Z) : result unit TxError * Backend :=
  let signed := signTx (send_payload nonce to amount limit) key in
  SendTransaction B signed.

(** [extractBalance] (lines 248-255): the balance at block 1; an error
    panics.  (Its [err] parameter is unused.) *)
Definition extractBalance (B : Backend) (a : Address) : Go Z :=
  match BalanceAt B a 1 with
  | Ok n => go_ret (Z.of_N n)
  | Err e => go_exit (Panic (errorString e))
  end.

(** [backend.Blockchain().CurrentBlock().Transactions()[0]]. *)
Definition currentBlockTx0 (B : Backend) : Go Transaction :=
  match last (chain B) with
  | Some b =>
    match transactions b with
    | (t, _) :: _ => go_ret t
    | [] => go_exit (Panic "runtime error: index out of range [0] with length 0")
    end
  | None => go_exit (Panic "runtime error: invalid memory address or nil pointer dereference")
  end.

(** [printTrxInfo] (lines 237-245); [trx.Cost()] is [value + gas * gasPrice]. *)
Definition printTrxInfo (trx : Transaction) : Go unit :=
  let p := payload trx in
  go_print (append "Amount: " (append (bigString (value p)) NL)) ;;
  go_print (append "GasPrice: " (append (bigString (Z.of_N (gasPrice p))) NL)) ;;
  go_print (append "Gas: " (append (N_to_dec (gasLimit p)) NL)) ;;
  go_print (append "Cost: " (append (bigString (value p))
             (append " + (" (append (N_to_dec (gasLimit p))
             (append " * " (append (bigString (Z.of_N (gasPrice p)))
             (append ") = " (append (bigString (value p + Z.of_N (gasLimit p * gasPrice p)))
             NL)))))))) ;;
  go_print (append "To (public key): " (append (addressString (recipient p)) NL)) ;;
  go_print NL.

(** A console read: the prompt, then the value. *)
Definition read (r : string * Z) : Go Z := go_print r.1 ;; go_ret r.2.

Definition setup : Go Backend :=
  let balance := initial_balance in
  go_print (append "CLIENTES INICIALES" NL) ;;
  go_print (printBalance "A" balance) ;;
  go_print (append "Clave publica A: " (append (addressString addrA) NL)) ;;
  go_print NL ;;
  go_print (printBalance "B" balance) ;;
  go_print (append "Clave publica B: " (append (addressString addrB) NL)) ;;
  go_print (append "- - - - - - - - - - -" NL) ;;
  go_ret (NewSimulatedBackend (genesisChain balance balance)).

(** Phase 1 returns the committed backend and the balances read from it. *)
Definition phase1 (B : Backend) (c : Console) : Go (Backend * Z * Z) :=
  let nonce := PendingNonceAt B addrA in
  let! a := read (getAmount (amount1 c)) in
  let! limit := read (getGasLimit (limit1 c)) in
  match send_step B nonce addrB privateKeyA a limit with
  | (Err _, _) => go_print (append "ERROR Gas insuficiente" NL) ;; go_exit Return
  | (Ok _, B1) =>
    let B2 := Commit B1 in
    let! balance1A := extractBalance B2 addrA in
    let! balance1B := extractBalance B2 addrB in
    let! trx1 := currentBlockTx0 B2 in
    go_print (append "A - - - " (append (bigString (value (payload trx1)))
               (append " - - - > B" (append NL NL)))) ;;
    printTrxInfo trx1 ;;
    let! x := extractBalance B2 addrA in go_print (printBalance "A" x) ;;
    let! y := extractBalance B2 addrB in go_print (printBalance "B" y) ;;
    match Close B2 with
    | Err msg => go_print (append msg NL) ;; go_exit Return
    | Ok _ =>
      go_print (append "- - - - - - - - - - -" NL) ;;
      go_print NL ;;
      go_ret (B2, balance1A, balance1B)
    end
  end.

(** Phase 2 returns the second backend after its commit. *)
Definition phase2 (B1 : Backend) (balance1A balance1B : Z) (c : Console) : Go Backend :=
  let genesisChain2 := genesisChain balance1A balance1B in
  let nonce := PendingNonceAt B1 addrB in
  let B := NewSimulatedBackend genesisChain2 in
  let! a := read (getAmount (amount2 c)) in
  let! limit := read (getGasLimit (limit2 c)) in
  match send_step B nonce addrA privateKeyB a limit with
  | (Err e, _) => go_print (append (errorString e) NL) ;; go_exit Return
  | (Ok _, B') =>
    let B2 := Commit B' in
    let! trx2 := currentBlockTx0 B2 in
    go_print (append "B - - - " (append (bigString (value (payload trx2)))
               (append " - - - > A" NL))) ;;
    printTrxInfo trx2 ;;
    let! x := extractBalance B2 addrA in go_print (printBalance "A" x) ;;
    let! y := extractBalance B2 addrB in go_print (printBalance "B" y) ;;
    go_print (append NL "Press 'Enter' to finish...") ;;
    go_ret B2
  end.

Definition main_body (c : Console) : Go Backend :=
  let! B := setup in
  let! r := phase1 B c in
  let '(B1, balance1A, balance1B) := r in
  phase2 B1 balance1A balance1B c.

(** The deferred [recover]: a panic prints its message and the prompt. *)
Definition main (c : Console) : list string :=
  let '(out, r) := main_body c in
  match r with
  | Err (Panic msg) =>
    out ++ [append "ERROR: " (append msg NL); append NL "Press 'Enter' to finish..."]
  | _ => out
  end.

(** ** Lemmas on the two phases *)

(** On a fresh backend, after an applied send and a commit, the balance
    queries at block 1 and the first transaction of the current block
    succeed. *)
Lemma extractBalance_fresh g tx u B1 a :
  SendTransaction (NewSimulatedBackend g) tx = (Ok u, B1) ->
  extractBalance (Commit B1) a = go_ret (Z.of_N (getBalance (ledger B1) a)).
Proof.
  intros H. destruct (fresh_send_commit g tx u B1 H) as (r & _ & Hc & _).
  unfold extractBalance, BalanceAt, balanceAt. by rewrite Hc.
Qed.

Lemma currentBlockTx0_fresh g tx u B1 :
  SendTransaction (NewSimulatedBackend g) tx = (Ok u, B1) ->
  currentBlockTx0 (Commit B1) = go_ret tx.
Proof.
  intros H. destruct (fresh_send_commit g tx u B1 H) as (r & _ & Hc & _).
  unfold currentBlockTx0. by rewrite Hc.
Qed.

Lemma setup_snd : setup.2 = Ok (NewSimulatedBackend (genesisChain initial_balance initial_balance)).
Proof. reflexivity. Qed.

(** After an applied send on a fresh backend, everything between the send
    and the end of a phase is a fixed sequence of prints. *)
Ltac phase_after_send Hs :=
  rewrite (extractBalance_fresh _ _ _ _ addrA Hs), (extractBalance_fresh _ _ _ _ addrB Hs),
    (currentBlockTx0_fresh _ _ _ _ Hs); reflexivity.

(** How phase 1 ends, on the backend [setup] creates. *)
Lemma phase1_snd g c :
  let B0 := NewSimulatedBackend g in
  (phase1 B0 c).2 =
  match send_step B0 (PendingNonceAt B0 addrA) addrB privateKeyA
          (scanInt64 (amount1 c)) (scanInt64 (limit1 c)) with
  | (Err _, _) => Err Return
  | (Ok _, B1) => Ok (Commit B1, Z.of_N (getBalance (ledger B1) addrA),
                      Z.of_N (getBalance (ledger B1) addrB))
  end.
Proof.
  intros B0. unfold phase1. cbn [read getAmount getGasLimit go_bind go_print go_ret fst snd].
  destruct (send_step _ _ _ _ _ _) as [[u|e] B1] eqn:Hs; [phase_after_send Hs | reflexivity].
Qed.

(** How phase 2 ends: it always runs on a fresh backend. *)
Lemma phase2_snd B1 b1 b2 c :
  let B := NewSimulatedBackend (genesisChain b1 b2) in
  (phase2 B1 b1 b2 c).2 =
  match send_step B (PendingNonceAt B1 addrB) addrA privateKeyB
          (scanInt64 (amount2 c)) (scanInt64 (limit2 c)) with
  | (Err _, _) => Err Return
  | (Ok _, B') => Ok (Commit B')
  end.
Proof.
  intros B. unfold phase2. cbn [read getAmount getGasLimit go_bind go_print go_ret fst snd].
  destruct (send_step _ _ _ _ _ _) as [[u|e] B'] eqn:Hs; [phase_after_send Hs | reflexivity].
Qed.

(** The last line phase 2 prints: the error of its send, or the final
    prompt. *)
Lemma phase2_last B1 b1 b2 c :
  last (phase2 B1 b1 b2 c).1 =
  Some match send_step (NewSimulatedBackend (genesisChain b1 b2)) (PendingNonceAt B1 addrB)
               addrA privateKeyB (scanInt64 (amount2 c)) (scanInt64 (limit2 c)) with
       | (Err e, _) => append (errorString e) NL
       | (Ok _, _) => append NL "Press 'Enter' to finish..."
       end.
Proof.
  unfold phase2. cbn [read getAmount getGasLimit go_bind go_print go_ret fst snd].
  destruct (send_step _ _ _ _ _ _) as [[u|e] B'] eqn:Hs; [phase_after_send Hs | reflexivity].
Qed.

Lemma main_body_snd c :
  (main_body c).2 =
  match (phase1 (NewSimulatedBackend (genesisChain initial_balance initial_balance)) c).2 with
  | Ok (B1, b1, b2) => (phase2 B1 b1 b2 c).2
  | Err e => Err e
  end.
Proof.
  unfold main_body. rewrite go_bind_snd, setup_snd, go_bind_snd.
  by destruct (phase1 _ c) as [o [[[B1 b1] b2]|e]].
Qed.

(** A run of [main] that completes made two applied sends, the second on
    the backend rebuilt from the balances the first left. *)
Lemma main_body_Ok_send c B2 :
  (main_body c).2 = Ok B2 ->
  let B0 := NewSimulatedBackend (genesisChain initial_balance initial_balance) in
  exists u1 B1 u2 B',
    send_step B0 (PendingNonceAt B0 addrA) addrB privateKeyA
      (scanInt64 (amount1 c)) (scanInt64 (limit1 c)) = (Ok u1, B1) /\
    send_step (NewSimulatedBackend (genesisChain (Z.of_N (getBalance (ledger B1) addrA))
                                                 (Z.of_N (getBalance (ledger B1) addrB))))
      (PendingNonceAt (Commit B1) addrB) addrA privateKeyB
      (scanInt64 (amount2 c)) (scanInt64 (limit2 c)) = (Ok u2, B') /\
    B2 = Commit B'.
Proof.
  intros H B0. rewrite main_body_snd, phase1_snd in H.
  destruct (send_step _ _ _ _ _ _) as [[u1|e] B1] eqn:Hs1 in H; [|discriminate].
  rewrite phase2_snd in H.
  destruct (send_step _ _ _ _ _ _) as [[u2|e'] B'] eqn:Hs2 in H; [|discriminate].
  injection H as <-. eauto 10.
Qed.

Lemma main_body_no_panic c msg : (main_body c).2 <> Err (Panic msg).
Proof.
  rewrite main_body_snd, phase1_snd.
  destruct (send_step _ _ _ _ _ _) as [[u|e] B1]; [|discriminate].
  rewrite phase2_snd. destruct (send_step _ _ _ _ _ _) as [[u'|e'] B']; discriminate.
Qed.

(** Without a panic the deferred [recover] prints nothing. *)
Lemma main_output c : main c = (main_body c).1.
Proof.
  unfold main. pose proof (main_body_no_panic c) as Hnp.
  destruct (main_body c) as [o [B|[|msg]]]; [done | done |].
  exfalso. by apply (Hnp msg).
Qed.

(** ** Lemmas on a send *)

Lemma SendTransaction_validate_Err B tx e :
  validate (ledger B) tx = Err e -> SendTransaction B tx = (Err e, B).
Proof. intros H. unfold SendTransaction, submit. by rewrite H. Qed.

(** What an applied send did: the amount was in the value domain, the
    nonce was the signer's, the gas limit covered the transfer gas, the
    transaction joined the pending batch with a receipt of 21000 gas at
    price 1, and the ledger is the one [applyTransfer] computed. *)
Lemma send_step_Applied B n to key a l u B' :
  send_step B n to key a l = (Ok u, B') ->
  let tx := signTx (send_payload n to a l) key in
  (0 <= a)%Z /\ n = getNonce (ledger B) (pubAddress key) /\
  MINIMUM_TRANSFER_GAS <= to_uint64 l /\
  B' = mkBackend (ledger B')
         (pending B ++ [(tx, mkReceipt tx Applied MINIMUM_TRANSFER_GAS MINIMUM_TRANSFER_GAS)])
         (chain B) /\
  applyTransfer (ledger B) (pubAddress key) to (Z.to_N a) MINIMUM_TRANSFER_GAS = Ok (ledger B').
Proof.
  intros H tx. unfold send_step in H. fold tx in H.
  apply SendTransaction_Ok in H as (r & Hsub & Hst & HB).
  pose proof (submit_Applied_value _ _ _ _ Hsub Hst) as Ha.
  destruct (submit_Applied _ _ _ _ Hsub Hst) as (s & Hsig & Hn & Hg & Hr & Hap).
  pose proof (signed_by_functional _ _ _ Hsig (signTx_signed_by _ key)) as <-.
  assert (Hfee : transfer_fee tx = MINIMUM_TRANSFER_GAS) by reflexivity.
  rewrite Hfee in Hr, Hap. subst r. by repeat split.
Qed.

(** The same applied send, as the transfer specification of its ledger. *)
Lemma send_step_transfer B n to key a l u B' :
  send_step B n to key a l = (Ok u, B') ->
  (0 <= a)%Z /\ transfer_spec (ledger B) (pubAddress key) to (Z.to_N a) MINIMUM_TRANSFER_GAS (ledger B').
Proof.
  intros H. destruct (send_step_Applied _ _ _ _ _ _ _ _ H) as (Ha & _ & _ & _ & T).
  split; [done | by apply applyTransfer_refines].
Qed.

(** The verdict of a send is the validator's. *)
Lemma send_step_verdict B n to key a l :
  ledger_bounded (ledger B) ->
  (send_step B n to key a l).1 =
  match validate (ledger B) (signTx (send_payload n to a l) key) with
  | Ok _ => Ok tt
  | Err e => Err e
  end.
Proof.
  intros Hb. unfold send_step. set (tx := signTx _ key).
  pose proof (submit_status_validate (ledger B) tx Hb) as Hst.
  unfold SendTransaction. destruct (submit (ledger B) tx) as [r L']. simpl in *.
  rewrite Hst. by destruct (validate (ledger B) tx).
Qed.

(** The balances read after phase 1 rebuild, in the second genesis, a
    ledger with the same balances. *)
Lemma genesis_after_transfer L0 L1 v fee :
  transfer_spec L0 addrA addrB v fee L1 -> addrA <> addrB ->
  L0 = ledger_of_genesis (genesisChain initial_balance initial_balance) ->
  bal_eq L1 (ledger_of_genesis (genesisChain (Z.of_N (getBalance L1 addrA))
                                             (Z.of_N (getBalance L1 addrB)))).
Proof.
  intros T Hne -> a. unfold genesisChain. rewrite getBalance_genesis2.
  pose proof (ts_balance _ _ _ _ _ _ T a) as Ha.
  repeat case_decide; subst; rewrite ?N2Z.id; try done.
  unfold genesisChain in Ha. rewrite getBalance_genesis2 in Ha.
  rewrite !decide_False in Ha by done. lia.
Qed.

(** ** Theorems about a send and about [main] *)

(** C1: the program's send (lines 103-123) refines the engine behind
    the validator: on a ledger whose supply fits the value domain,
    [send_step] fails, changing nothing, exactly when the validator
    rejects the transaction it builds and signs, with the validator's
    reason; otherwise the engine's receipt joins the pending batch and
    its ledger becomes the working ledger. *)
Theorem send_step_validate B n to key a l :
  ledger_bounded (ledger B) ->
  send_step B n to key a l =
  let tx := signTx (send_payload n to a l) key in
  match validate (ledger B) tx with
  | Ok _ => (Ok tt, mkBackend (submit (ledger B) tx).2
                       (pending B ++ [(tx, (submit (ledger B) tx).1)]) (chain B))
  | Err e => (Err e, B)
  end.
Proof.
  intros Hb. unfold send_step. cbv zeta.
  set (tx := signTx _ key).
  pose proof (submit_status_validate (ledger B) tx Hb) as Hst.
  unfold SendTransaction. destruct (submit (ledger B) tx) as [r L']. simpl in *.
  rewrite Hst. by destruct (validate (ledger B) tx).
Qed.

(** C2: an applied send appends the signed transaction, with a receipt
    of 21000 gas at price 1, to the pending batch, leaves the chain
    alone, moves the ledger as the transfer specification says for the
    signer, the recipient and the amount, and removes exactly the fee
    from circulation. *)
Theorem send_step_applied B n to key a l u B' :
  send_step B n to key a l = (Ok u, B') ->
  let tx := signTx (send_payload n to a l) key in
  pending B' = pending B ++ [(tx, mkReceipt tx Applied MINIMUM_TRANSFER_GAS MINIMUM_TRANSFER_GAS)] /\
  chain B' = chain B /\
  transfer_spec (ledger B) (pubAddress key) to (Z.to_N a) MINIMUM_TRANSFER_GAS (ledger B') /\
  total_supply (ledger B') + MINIMUM_TRANSFER_GAS = total_supply (ledger B).
Proof.
  intros H tx. destruct (send_step_Applied _ _ _ _ _ _ _ _ H) as (_ & _ & _ & HB & Hap).
  split; [by rewrite HB|]. split; [by rewrite HB|]. split.
  - by apply applyTransfer_refines.
  - by apply applyTransfer_conservation in Hap.
Qed.

(** C3: rebuilding the backend between the two transfers (lines
    155-173) is invisible in the balances but not in the nonces: when
    [main] completes, submitting the two transactions it signs (A to B
    with A's nonce 0, then B to A with B's nonce 0, each with the
    console's amount and gas limit) in order to one persistent ledger
    on the first genesis applies both, and gives every address the
    balance it has in the program's final ledger; yet A's nonce is 1
    there and 0 in the program's final ledger. *)
Theorem main_refines_persistent c B2 :
  addrA <> addrB -> (main_body c).2 = Ok B2 ->
  let tx1 := signTx (send_payload 0 addrB (scanInt64 (amount1 c)) (scanInt64 (limit1 c))) privateKeyA in
  let tx2 := signTx (send_payload 0 addrA (scanInt64 (amount2 c)) (scanInt64 (limit2 c))) privateKeyB in
  let '(rs, L) := submit_all (ledger_of_genesis (genesisChain initial_balance initial_balance)) [tx1; tx2] in
  map status rs = [Applied; Applied] /\ bal_eq (ledger B2) L /\
  getNonce L addrA = 1 /\ getNonce (ledger B2) addrA = 0.
Proof.
  intros Hne H tx1 tx2.
  destruct (main_body_Ok_send c B2 H) as (u1 & B1 & u2 & B' & H1 & H2 & ->).
  set (L0 := ledger_of_genesis (genesisChain initial_balance initial_balance)).
  change (PendingNonceAt (NewSimulatedBackend ?g) addrA) with (getNonce (ledger_of_genesis g) addrA) in H1.
  rewrite getNonce_genesis in H1.
  destruct (send_step_transfer _ _ _ _ _ _ _ _ H1) as [_ T1]. fold addrA in T1.
  pose proof (genesis_after_transfer _ _ _ _ T1 Hne eq_refl) as Hbal.
  assert (HnB : getNonce (ledger B1) addrB = 0).
  { rewrite (ts_nonce _ _ _ _ _ _ T1), decide_False by done. cbn [ledger NewSimulatedBackend].
    rewrite getNonce_genesis. done. }
  change (PendingNonceAt (Commit B1) addrB) with (getNonce (ledger B1) addrB) in H2.
  rewrite HnB in H2.
  destruct (send_step_transfer _ _ _ _ _ _ _ _ H2) as [_ T2']. fold addrB in T2'.
  unfold send_step in H1, H2. fold tx1 in H1. fold tx2 in H2.
  apply SendTransaction_Ok in H1 as (r1 & E1 & S1 & _), H2 as (r2 & E2 & S2 & _).
  set (Lg2 := ledger_of_genesis _) in Hbal.
  destruct (submit (ledger B1) tx2) as [r2p L2] eqn:E2p.
  destruct (submit_bal_eq (ledger B1) Lg2 tx2 Hbal) as [Hr Hb2].
  { intros s Hs. unfold tx2 in Hs. rewrite sender_of_signTx in Hs. injection Hs as <-.
    fold addrB. unfold Lg2. by rewrite HnB, getNonce_genesis. }
  change (ledger (NewSimulatedBackend _)) with Lg2 in E2.
  rewrite E2p, E2 in Hr, Hb2. simpl in Hr, Hb2. subst r2p.
  destruct (submit_Applied _ _ _ _ E2p S2) as (s2 & Hsig2 & _ & _ & _ & T2).
  apply applyTransfer_refines in T2.
  apply sender_of_signed_by in Hsig2. unfold tx2 in Hsig2. rewrite sender_of_signTx in Hsig2. injection Hsig2 as <-.
  change (ledger (NewSimulatedBackend _)) with L0 in E1.
  cbn [submit_all]. rewrite E1, E2p. cbn [map]. rewrite S1, S2.
  split; [done|]. split; [by symmetry|]. split.
  - rewrite (ts_nonce _ _ _ _ _ _ T2), decide_False by done.
    rewrite (ts_nonce _ _ _ _ _ _ T1), decide_True by done.
    cbn [ledger NewSimulatedBackend]. by rewrite getNonce_genesis.
  - cbn [ledger Commit]. rewrite (ts_nonce _ _ _ _ _ _ T2'), decide_False by done.
    cbn [ledger NewSimulatedBackend]. rewrite getNonce_genesis. done.
Qed.

(** C4: what the two clients hold when [main] completes is what they
    were given, less the two fees: the transfers between them move
    value, and only the gas of the two transactions leaves. *)
Theorem main_clients_balance c B2 :
  addrA <> addrB -> (main_body c).2 = Ok B2 ->
  getBalance (ledger B2) addrA + getBalance (ledger B2) addrB + 2 * MINIMUM_TRANSFER_GAS
  = 2 * Z.to_N initial_balance.
Proof.
  intros Hne H.
  destruct (main_body_Ok_send c B2 H) as (u1 & B1 & u2 & B' & H1 & H2 & ->).
  destruct (send_step_transfer _ _ _ _ _ _ _ _ H1) as [_ T1].
  destruct (send_step_transfer _ _ _ _ _ _ _ _ H2) as [_ T2]. fold addrA addrB in T1, T2.
  pose proof (ts_balance _ _ _ _ _ _ T1 addrA) as A1.
  pose proof (ts_balance _ _ _ _ _ _ T1 addrB) as B1'.
  pose proof (ts_balance _ _ _ _ _ _ T2 addrA) as A2.
  pose proof (ts_balance _ _ _ _ _ _ T2 addrB) as B2'.
  cbn [ledger Commit NewSimulatedBackend] in *. unfold genesisChain in *.
  rewrite !getBalance_genesis2, !N2Z.id in *.
  repeat case_decide; subst; try congruence. lia.
Qed.

(** C5: an applied send used the signer's pending nonce, and advances
    that nonce, and no other, by one: per-sender nonces increase by
    exactly 1 with each applied transaction. *)
Theorem send_step_nonce B n to key a l u B' :
  send_step B n to key a l = (Ok u, B') ->
  n = PendingNonceAt B (pubAddress key) /\
  forall x, PendingNonceAt B' x = PendingNonceAt B x + if decide (x = pubAddress key) then 1 else 0.
Proof.
  intros H. destruct (send_step_Applied _ _ _ _ _ _ _ _ H) as (_ & Hn & _ & _ & T).
  apply applyTransfer_refines in T. split; [done|]. intros x. apply (ts_nonce _ _ _ _ _ _ T).
Qed.

(** C6: replaying a nonce: once a send with nonce [n] is applied, any
    further send by the same key with nonce [n] (whatever its recipient
    and amount, and a gas limit that passes the gas check) fails with
    [NonceMismatch] and changes nothing. *)
Theorem send_step_replay B n to key a l u B' to' a' l' :
  send_step B n to key a l = (Ok u, B') -> MINIMUM_TRANSFER_GAS <= to_uint64 l' ->
  send_step B' n to' key a' l' = (Err NonceMismatch, B').
Proof.
  intros H Hl'. destruct (send_step_Applied _ _ _ _ _ _ _ _ H) as (_ & Hn & _ & _ & T).
  apply applyTransfer_refines in T.
  pose proof (ts_nonce _ _ _ _ _ _ T (pubAddress key)) as Hn'.
  rewrite decide_True in Hn' by done.
  unfold send_step. apply SendTransaction_validate_Err, validate_Err_iff.
  eapply rej_nonce; [apply signTx_signed_by | exact Hl' | simpl; lia].
Qed.

(** C7: [main] never panics, whatever the console says: the balance
    queries at block 1 and [Transactions()[0]] always find what they
    look for, so the deferred [recover] never prints, and the output is
    exactly what the body printed. *)
Theorem main_no_panic c :
  main c = (main_body c).1 /\ forall msg, (main_body c).2 <> Err (Panic msg).
Proof. split; [apply main_output | apply main_body_no_panic]. Qed.

(** C8: the backend a completed run of [main] ends with has a
    well-indexed chain of two blocks (the second genesis and the second
    transfer), an empty pending batch, and a ledger whose supply fits the
    value domain. *)
Theorem main_backend_wf c B2 :
  (main_body c).2 = Ok B2 ->
  chain_wf (chain B2) /\ Datatypes.length (chain B2) = 2%nat /\ currentIndex (chain B2) = Some 1 /\
  pending B2 = [] /\ ledger_bounded (ledger B2).
Proof.
  intros H. destruct (main_body_Ok_send c B2 H) as (u1 & B1 & u2 & B' & H1 & H2 & ->).
  destruct (send_step_Applied _ _ _ _ _ _ _ _ H1) as (_ & _ & _ & _ & T1).
  destruct (send_step_Applied _ _ _ _ _ _ _ _ H2) as (_ & _ & _ & HB & T2).
  split; [|split; [|split; [|split]]]; [rewrite HB; intros [|[|i]] b Hb; simpl in Hb;
    by simplify_eq | by rewrite HB | by rewrite HB | done |].
  apply applyTransfer_conservation in T1, T2.
  cbn [ledger Commit NewSimulatedBackend] in *. unfold genesisChain in *.
  pose proof (total_supply_genesis2 addrA addrB (Z.to_N initial_balance) (Z.to_N initial_balance)).
  pose proof (total_supply_genesis2 addrA addrB
    (Z.to_N (Z.of_N (getBalance (ledger B1) addrA))) (Z.to_N (Z.of_N (getBalance (ledger B1) addrB)))).
  rewrite !N2Z.id in *.
  pose proof (getBalance_le_total (ledger B1) addrA).
  pose proof (getBalance_le_total (ledger B1) addrB).
  assert (Hi : Z.to_N initial_balance = 10000000) by reflexivity.
  assert (Hm : 40000000 <= max_value) by (vm_compute; discriminate).
  unfold ledger_bounded. lia.
Qed.

(** C9: the nonces around the rebuilt backend (lines 167-173): after
    phase 1, A's pending nonce is 1 and B's 0 on the first backend; on
    the backend built from the second genesis both are 0.  Reading B's
    nonce from the first backend is therefore harmless, while A's nonce
    is reset. *)
Theorem phase1_nonces c B1 b1 b2 :
  addrA <> addrB ->
  (phase1 (NewSimulatedBackend (genesisChain initial_balance initial_balance)) c).2 =
    Ok (B1, b1, b2) ->
  PendingNonceAt B1 addrA = 1 /\ PendingNonceAt B1 addrB = 0 /\
  PendingNonceAt (NewSimulatedBackend (genesisChain b1 b2)) addrA = 0 /\
  PendingNonceAt (NewSimulatedBackend (genesisChain b1 b2)) addrB = 0.
Proof.
  intros Hne H. rewrite phase1_snd in H.
  destruct (send_step _ _ _ _ _ _) as [[u|e] B1'] eqn:Hs in H; [|discriminate].
  injection H as <- _ _.
  destruct (send_step_transfer _ _ _ _ _ _ _ _ Hs) as [_ T]. fold addrA in T.
  unfold PendingNonceAt. cbn [ledger Commit NewSimulatedBackend].
  rewrite !(ts_nonce _ _ _ _ _ _ T). cbn [ledger NewSimulatedBackend].
  rewrite !getNonce_genesis. repeat case_decide; subst; try congruence. lia.
Qed.

(** C10: a negative gas limit typed at the console is never reported as
    too low: [uint64(limit)] (line 103) turns it into at least 2^63, so
    on a bounded ledger the send may fail for other reasons but never
    with [GasLimitTooLow]. *)
Theorem send_step_negative_limit B n to key a l :
  ledger_bounded (ledger B) -> (INT64_MIN <= l < 0)%Z ->
  (send_step B n to key a l).1 <> Err GasLimitTooLow.
Proof.
  intros Hb Hl. rewrite send_step_verdict by done.
  rewrite (validate_signed _ _ _ (signTx_signed_by _ key)).
  unfold send_payload. cbn [payload signTx gasLimit NewTransaction].
  pose proof (to_uint64_neg l Hl) as Hw. unfold MINIMUM_TRANSFER_GAS, INT64_MIN in *.
  change (2 ^ 64)%Z with 18446744073709551616%Z in Hw.
  change (2 ^ 63)%Z with 9223372036854775808%Z in Hl.
  case_N; simpl; try discriminate; lia.
Qed.

(** C11: whatever makes the first send fail (an insufficient balance,
    a gas limit below 21000, an amount outside the value domain), phase
    1 prints the two prompts and then ["ERROR Gas insuficiente"], and
    returns. *)
Theorem phase1_error_message B c e B' :
  send_step B (PendingNonceAt B addrA) addrB privateKeyA
    (scanInt64 (amount1 c)) (scanInt64 (limit1 c)) = (Err e, B') ->
  phase1 B c = ([PROMPT_AMOUNT; PROMPT_GAS_LIMIT; append "ERROR Gas insuficiente" NL], Err Return).
Proof.
  intros H. unfold phase1. cbn [read getAmount getGasLimit go_bind go_print go_ret fst snd].
  by rewrite H.
Qed.

(** C15: a sent transaction is committed by the next [Commit]: on a
    backend with nothing pending, after an applied send and a commit,
    [Transactions()[0]] of the current block is that transaction and the
    new block answers balance queries with the ledger the send left. *)
Theorem send_step_committed B n to key a l u B' :
  send_step B n to key a l = (Ok u, B') -> pending B = [] ->
  let tx := signTx (send_payload n to a l) key in
  currentBlockTx0 (Commit B') = go_ret tx /\
  forall x, BalanceAt (Commit B') x (N.of_nat (Datatypes.length (chain B))) =
            Ok (getBalance (ledger B') x).
Proof.
  intros H Hp tx. destruct (send_step_Applied _ _ _ _ _ _ _ _ H) as (_ & _ & _ & HB & _).
  assert (Hc : chain B' = chain B) by (by rewrite HB).
  assert (Hpe : exists rc, pending B' = [(tx, rc)]) by (rewrite HB, Hp; eexists; reflexivity).
  destruct Hpe as [rc Hpe]. split.
  - unfold currentBlockTx0, Commit. cbn [chain commit snd]. by rewrite last_snoc, Hpe.
  - intros x. unfold BalanceAt, Commit. cbn [chain]. rewrite <- Hc.
    apply balanceAt_commit_new.
Qed.

(** C16: every run of [main] reaches one of its three exits and
    prints its message last: ["ERROR Gas insuficiente"] when the first
    send fails (line 121), the backend's error when the second one does
    (line 198), and the final prompt otherwise (line 216). *)
Theorem main_last_line c :
  let B0 := NewSimulatedBackend (genesisChain initial_balance initial_balance) in
  last (main c) =
  Some match send_step B0 (PendingNonceAt B0 addrA) addrB privateKeyA
               (scanInt64 (amount1 c)) (scanInt64 (limit1 c)) with
       | (Err _, _) => append "ERROR Gas insuficiente" NL
       | (Ok _, B1) =>
         match send_step (NewSimulatedBackend (genesisChain (Z.of_N (getBalance (ledger B1) addrA))
                                                            (Z.of_N (getBalance (ledger B1) addrB))))
                 (PendingNonceAt (Commit B1) addrB) addrA privateKeyB
                 (scanInt64 (amount2 c)) (scanInt64 (limit2 c)) with
         | (Err e, _) => append (errorString e) NL
         | (Ok _, _) => append NL "Press 'Enter' to finish..."
         end
       end.
Proof.
  cbv zeta. rewrite main_output. unfold main_body.
  rewrite go_bind_fst, setup_snd. cbv beta iota. rewrite go_bind_fst.
  pose proof (phase1_snd (genesisChain initial_balance initial_balance) c) as H1.
  cbv zeta in H1.
  destruct (send_step (NewSimulatedBackend _) _ _ _ _ _) as [[u|e] B1] eqn:Hs1.
  - rewrite H1. cbv beta iota. rewrite !last_app, phase2_last. reflexivity.
  - rewrite H1. rewrite !last_app. unfold phase1. cbn [read getAmount getGasLimit go_bind go_print go_ret fst snd].
    rewrite Hs1. reflexivity.
Qed.

(** C17: the gas-limit boundary: on a bounded ledger, a send is refused
    with [GasLimitTooLow] exactly when [uint64(limit)] is below 21000,
    whatever the amount. *)
Theorem send_step_gas_boundary B n to key a l :
  ledger_bounded (ledger B) ->
  ((send_step B n to key a l).1 = Err GasLimitTooLow <-> to_uint64 l < MINIMUM_TRANSFER_GAS).
Proof.
  intros Hb. rewrite send_step_verdict by done.
  rewrite (validate_signed _ _ _ (signTx_signed_by _ key)). unfold send_payload. cbn [payload signTx gasLimit NewTransaction].
  case_N; simpl; split; intros; try congruence; lia.
Qed.

(** C18: the Cost line [printTrxInfo] prints (line 241, [trx.Cost()],
    the maximal charge [value + gas * gasPrice]) for a sent transaction
    is not what the transfer debits: after an applied send the sender
    has lost [value + 21000], and the total printed on the Cost line is
    that debit plus the unused gas [gasLimit - 21000]. *)
Theorem printed_cost_vs_debit B n to key a l u B' :
  send_step B n to key a l = (Ok u, B') -> pubAddress key <> to ->
  let s := pubAddress key in
  let debit := (Z.of_N (getBalance (ledger B) s) - Z.of_N (getBalance (ledger B') s))%Z in
  debit = (a + Z.of_N MINIMUM_TRANSFER_GAS)%Z /\
  (printTrxInfo (signTx (send_payload n to a l) key)).1 !! 3%nat =
    Some (append "Cost: " (append (bigString a) (append " + (" (append (N_to_dec (to_uint64 l))
      (append " * " (append (bigString 1) (append ") = "
      (append (bigString (debit + (Z.of_N (to_uint64 l) - Z.of_N MINIMUM_TRANSFER_GAS)))
      NL)))))))).
Proof.
  intros H Hne s debit. destruct (send_step_transfer _ _ _ _ _ _ _ _ H) as [Ha T].
  pose proof (ts_balance _ _ _ _ _ _ T s) as Hs.
  rewrite decide_True, decide_False in Hs by done.
  assert (Hd : debit = (a + Z.of_N MINIMUM_TRANSFER_GAS)%Z) by (unfold debit; lia).
  split; [exact Hd|].
  assert (Hc : (debit + (Z.of_N (to_uint64 l) - Z.of_N MINIMUM_TRANSFER_GAS))%Z =
               (a + Z.of_N (to_uint64 l * 1))%Z) by (rewrite Hd; lia).
  rewrite Hc. reflexivity.
Qed.

(** C19: the final balances of a completed run of [main], in terms of
    the console: A ends with its initial balance less its amount and
    the 21000 gas of its transfer, plus B's amount; B with its initial
    balance plus A's amount, less its own amount and gas. *)
Theorem main_final_balances c B2 :
  addrA <> addrB -> (main_body c).2 = Ok B2 ->
  let a1 := scanInt64 (amount1 c) in
  let a2 := scanInt64 (amount2 c) in
  Z.of_N (getBalance (ledger B2) addrA) = (initial_balance - a1 - Z.of_N MINIMUM_TRANSFER_GAS + a2)%Z /\
  Z.of_N (getBalance (ledger B2) addrB) = (initial_balance + a1 - a2 - Z.of_N MINIMUM_TRANSFER_GAS)%Z.
Proof.
  intros Hne H a1 a2.
  destruct (main_body_Ok_send c B2 H) as (u1 & B1 & u2 & B' & H1 & H2 & ->).
  destruct (send_step_transfer _ _ _ _ _ _ _ _ H1) as [Ha1 T1].
  destruct (send_step_transfer _ _ _ _ _ _ _ _ H2) as [Ha2 T2]. fold addrA addrB in T1, T2.
  pose proof (ts_balance _ _ _ _ _ _ T1 addrA) as A1.
  pose proof (ts_balance _ _ _ _ _ _ T1 addrB) as B1'.
  pose proof (ts_balance _ _ _ _ _ _ T2 addrA) as A2.
  pose proof (ts_balance _ _ _ _ _ _ T2 addrB) as B2'.
  cbn [ledger Commit NewSimulatedBackend] in *. unfold genesisChain in *.
  rewrite !getBalance_genesis2, !N2Z.id in *.
  assert (Hi : initial_balance = 10000000%Z) by reflexivity.
  repeat case_decide; subst; try congruence. fold a1 a2 in Ha1, Ha2, A1, B1', A2, B2'.
  rewrite Hi in *. change (Z.to_N 10000000) with 10000000 in *.
  pose proof (Z2N.id a1 Ha1). pose proof (Z2N.id a2 Ha2). unfold MINIMUM_TRANSFER_GAS in *.
  split; lia.
Qed.

End Main.

(** ** Witnesses on the spec's scenario *)

Module MainScenarios.
Import TestSigner.
#[local] Existing Instance test_signer.

(** Stand-ins for the two external renderings: an address in decimal,
    and one text per error. *)
Definition addr_text (a : Address) : string := N_to_dec a.
Definition err_text (e : TxError) : string :=
  match e with
  | InvalidSignature => "invalid signature"
  | GasLimitTooLow => "intrinsic gas too low"
  | NonceMismatch => "invalid transaction nonce"
  | Overflow => "overflow"
  | InsufficientFunds => "insufficient funds for gas * price + value"
  | BlockNotFound => "block not found"
  end.

(** Scenarios A and B of the specification, and a first amount larger
    than A's balance. *)
Definition console_AB : Console := mkConsole (Some 1000%Z) (Some 21000%Z) (Some 2000%Z) (Some 21000%Z).
Definition console_rich : Console := mkConsole (Some 20000000%Z) (Some 21000%Z) None None.

Definition backend0 : Backend :=
  NewSimulatedBackend (genesisChain 1 2 initial_balance initial_balance).

Definition final_backend (c : Console) : Backend :=
  match (main_body addr_text err_text 1 2 c).2 with
  | Ok B => B
  | Err _ => backend0
  end.

Lemma main_AB_Ok :
  (main_body addr_text err_text 1 2 console_AB).2 = Ok (final_backend console_AB).
Proof.
  assert (Hok : is_ok (main_body addr_text err_text 1 2 console_AB).2 = true)
    by (vm_compute; reflexivity).
  unfold final_backend. destruct (main_body _ _ _ _ _).2; [reflexivity | discriminate].
Qed.

Lemma main_refines_persistent_witness :
  let tx1 := signTx (send_payload 0 (addrB 2) 1000%Z 21000%Z) 1 in
  let tx2 := signTx (send_payload 0 (addrA 1) 2000%Z 21000%Z) 2 in
  let '(rs, L) := submit_all (ledger_of_genesis (genesisChain 1 2 initial_balance initial_balance))
                    [tx1; tx2] in
  map status rs = [Applied; Applied] /\ bal_eq (ledger (final_backend console_AB)) L /\
  getNonce L (addrA 1) = 1 /\ getNonce (ledger (final_backend console_AB)) (addrA 1) = 0.
Proof.
  exact (main_refines_persistent (SP := test_signer) addr_text err_text 1 2 console_AB
           (final_backend console_AB) ltac:(vm_compute; discriminate) main_AB_Ok).
Defined.

Lemma main_clients_balance_witness :
  getBalance (ledger (final_backend console_AB)) (addrA 1) +
  getBalance (ledger (final_backend console_AB)) (addrB 2) + 2 * MINIMUM_TRANSFER_GAS
  = 2 * Z.to_N initial_balance.
Proof.
  apply (main_clients_balance (SP := test_signer) addr_text err_text 1 2 console_AB);
    [vm_compute; discriminate | exact main_AB_Ok].
Defined.

Lemma main_final_balances_witness :
  Z.of_N (getBalance (ledger (final_backend console_AB)) (addrA 1)) =
    (initial_balance - 1000 - Z.of_N MINIMUM_TRANSFER_GAS + 2000)%Z /\
  Z.of_N (getBalance (ledger (final_backend console_AB)) (addrB 2)) =
    (initial_balance + 1000 - 2000 - Z.of_N MINIMUM_TRANSFER_GAS)%Z.
Proof.
  exact (main_final_balances (SP := test_signer) addr_text err_text 1 2 console_AB
           (final_backend console_AB) ltac:(vm_compute; discriminate) main_AB_Ok).
Defined.

Lemma main_backend_wf_witness :
  let B := final_backend console_AB in
  chain_wf (chain B) /\ Datatypes.length (chain B) = 2%nat /\ currentIndex (chain B) = Some 1 /\
  pending B = [] /\ ledger_bounded (ledger B).
Proof.
  apply (main_backend_wf (SP := test_signer) addr_text err_text 1 2 console_AB).
  exact main_AB_Ok.
Defined.

(** Phase 1 of the scenario, on its own. *)
Definition phase1_out : Backend * Z * Z :=
  match (phase1 addr_text err_text 1 2 backend0 console_AB).2 with
  | Ok r => r
  | Err _ => (backend0, 0%Z, 0%Z)
  end.

Lemma phase1_AB_Ok : (phase1 addr_text err_text 1 2 backend0 console_AB).2 = Ok phase1_out.
Proof.
  assert (Hok : is_ok (phase1 addr_text err_text 1 2 backend0 console_AB).2 = true)
    by (vm_compute; reflexivity).
  unfold phase1_out. destruct (phase1 _ _ _ _ _ _).2; [reflexivity | discriminate].
Qed.

Lemma phase1_nonces_witness :
  PendingNonceAt phase1_out.1.1 (addrA 1) = 1 /\ PendingNonceAt phase1_out.1.1 (addrB 2) = 0 /\
  PendingNonceAt (NewSimulatedBackend (genesisChain 1 2 phase1_out.1.2 phase1_out.2)) (addrA 1) = 0 /\
  PendingNonceAt (NewSimulatedBackend (genesisChain 1 2 phase1_out.1.2 phase1_out.2)) (addrB 2) = 0.
Proof.
  apply (phase1_nonces (SP := test_signer) addr_text err_text 1 2 console_AB);
    [vm_compute; discriminate|].
  pose proof phase1_AB_Ok as E. unfold backend0 in E. rewrite E.
  by destruct phase1_out as [[B1 b1] b2].
Defined.

(** A's first transfer of the scenario, sent on its own. *)
Definition sent_AB : result unit TxError * Backend :=
  send_step backend0 0 (addrB 2) 1 1000%Z 21000%Z.

Lemma sent_AB_Ok : sent_AB = (Ok tt, sent_AB.2).
Proof.
  assert (H : sent_AB.1 = Ok tt) by (vm_compute; reflexivity).
  rewrite <- H. apply surjective_pairing.
Qed.


Lemma send_step_validate_witness :
  send_step backend0 0 (addrB 2) 1 1000%Z 21000%Z =
  let tx := signTx (send_payload 0 (addrB 2) 1000%Z 21000%Z) 1 in
  match validate (ledger backend0) tx with
  | Ok _ => (Ok tt, mkBackend (submit (ledger backend0) tx).2
                       (pending backend0 ++ [(tx, (submit (ledger backend0) tx).1)]) (chain backend0))
  | Err e => (Err e, backend0)
  end.
Proof.
  apply (send_step_validate (SP := test_signer)). unfold ledger_bounded; vm_compute; discriminate.
Defined.

Lemma send_step_applied_witness :
  let tx := signTx (send_payload 0 (addrB 2) 1000%Z 21000%Z) 1 in
  pending sent_AB.2 =
    pending backend0 ++ [(tx, mkReceipt tx Applied MINIMUM_TRANSFER_GAS MINIMUM_TRANSFER_GAS)] /\
  chain sent_AB.2 = chain backend0 /\
  transfer_spec (ledger backend0) (pubAddress 1) (addrB 2) (Z.to_N 1000) MINIMUM_TRANSFER_GAS
    (ledger sent_AB.2) /\
  total_supply (ledger sent_AB.2) + MINIMUM_TRANSFER_GAS = total_supply (ledger backend0).
Proof.
  exact (send_step_applied (SP := test_signer) backend0 0 (addrB (SP := test_signer) 2) 1 1000%Z 21000%Z tt
           sent_AB.2 sent_AB_Ok).
Defined.

Lemma send_step_nonce_witness :
  0 = PendingNonceAt backend0 (pubAddress 1) /\
  Forall (fun x => PendingNonceAt sent_AB.2 x =
    PendingNonceAt backend0 x + if decide (x = pubAddress 1) then 1 else 0) [1; 2; 3].
Proof.
  destruct (send_step_nonce (SP := test_signer) backend0 0 (addrB (SP := test_signer) 2) 1 1000%Z 21000%Z tt
           sent_AB.2 sent_AB_Ok) as [Hn Hx].
  split; [exact Hn | repeat constructor; apply Hx].
Defined.

Lemma send_step_replay_witness :
  send_step sent_AB.2 0 (addrA 1) 1 7%Z 30000%Z = (Err NonceMismatch, sent_AB.2).
Proof.
  apply (send_step_replay (SP := test_signer) backend0 0 (addrB (SP := test_signer) 2) 1 1000%Z 21000%Z tt);
    [exact sent_AB_Ok | vm_compute; discriminate].
Defined.

Lemma send_step_negative_limit_witness :
  (send_step backend0 0 (addrB 2) 1 1000%Z (-1)%Z).1 <> Err GasLimitTooLow.
Proof.
  apply send_step_negative_limit;
    [unfold ledger_bounded; vm_compute; discriminate | split; [vm_compute; discriminate | reflexivity]].
Defined.

Lemma send_step_committed_witness :
  let tx := signTx (send_payload 0 (addrB 2) 1000%Z 21000%Z) 1 in
  currentBlockTx0 (Commit sent_AB.2) = go_ret tx /\
  Forall (fun x => BalanceAt (Commit sent_AB.2) x (N.of_nat (Datatypes.length (chain backend0))) =
            Ok (getBalance (ledger sent_AB.2) x)) [1; 2; 3].
Proof.
  destruct (send_step_committed (SP := test_signer) backend0 0 (addrB (SP := test_signer) 2)
           1 1000%Z 21000%Z tt sent_AB.2 sent_AB_Ok eq_refl) as [Ht Hx].
  split; [exact Ht | repeat constructor; apply Hx].
Defined.

Lemma send_step_gas_boundary_witness :
  (send_step backend0 0 (addrB 2) 1 1000%Z 20999%Z).1 = Err GasLimitTooLow <->
  to_uint64 20999 < MINIMUM_TRANSFER_GAS.
Proof.
  apply send_step_gas_boundary. unfold ledger_bounded; vm_compute; discriminate.
Defined.

Lemma printed_cost_vs_debit_witness :
  let s := pubAddress 1 in
  let debit := (Z.of_N (getBalance (ledger backend0) s) - Z.of_N (getBalance (ledger sent_AB.2) s))%Z in
  debit = (1000 + Z.of_N MINIMUM_TRANSFER_GAS)%Z /\
  (printTrxInfo addr_text (signTx (send_payload 0 (addrB 2) 1000%Z 21000%Z) 1)).1 !! 3%nat =
    Some (append "Cost: " (append (bigString 1000) (append " + (" (append (N_to_dec (to_uint64 21000))
      (append " * " (append (bigString 1) (append ") = "
      (append (bigString (debit + (Z.of_N (to_uint64 21000) - Z.of_N MINIMUM_TRANSFER_GAS)))
      NL)))))))).
Proof.
  exact (printed_cost_vs_debit (SP := test_signer) addr_text backend0 0 (addrB (SP := test_signer) 2)
           1 1000%Z 21000%Z tt sent_AB.2 sent_AB_Ok ltac:(vm_compute; discriminate)).
Defined.

Definition send_rich : result unit TxError * Backend :=
  send_step backend0 (PendingNonceAt backend0 (addrA 1)) (addrB 2) 1
    (scanInt64 (amount1 console_rich)) (scanInt64 (limit1 console_rich)).

Lemma phase1_error_message_witness :
  send_rich.1 = Err InsufficientFunds /\
  phase1 addr_text err_text 1 2 backend0 console_rich
  = ([PROMPT_AMOUNT; PROMPT_GAS_LIMIT; append "ERROR Gas insuficiente" NL], Err Return).
Proof.
  assert (H1 : send_rich.1 = Err InsufficientFunds) by (vm_compute; reflexivity).
  split; [exact H1|].
  apply (phase1_error_message (SP := test_signer) addr_text err_text 1 2 backend0 console_rich
           InsufficientFunds send_rich.2).
  rewrite <- H1. apply surjective_pairing.
Defined.

End MainScenarios.

End TPMain.
